(** * GuessMaster-2025: the session/game-state manager of [game_logic.py]

    A shallow embedding of [GameManager] and the theorems that settle the
    specification's claims about it.

    Conventions of the embedding.
    - Python integers are [Z]; a dynamically typed argument is a [pyval].
    - A session is the dictionary stored under [active_games]; keys that
      only one mode creates are optional fields of the record [game].
    - Timestamps ([datetime.now()], the parsed ['start_time']) are
      microseconds on a common clock, as [Z].
    - [uuid.uuid4()], [random.randint] and [datetime.now()] are inputs of
      the operations that call them.
    - The manager's methods run in the monad [M]: they thread the manager
      state, may raise an exception, and may block for ever on the
      non-reentrant [threading.Lock]. *)

From stdpp Require Import gmap strings list fin_maps.
From Stdlib Require Import ZArith.

Local Open Scope Z_scope.

(** ** Python values and exceptions *)

Inductive pyval :=
| PyNone
| PyBool (b : bool)
| PyInt (z : Z)
| PyStr (s : string).

(** [isinstance(v, int)]: [bool] is a subclass of [int] in Python, and
    [True]/[False] compare and add as 1/0. *)
Definition as_int (v : pyval) : option Z :=
  match v with
  | PyInt z => Some z
  | PyBool b => Some (if b then 1 else 0)
  | PyNone | PyStr _ => None
  end.

(** The exceptions of [game_logic.py].  Every constructor up to
    [InvalidScoreMode] is a [GameError] raised with a fixed message; the
    [FailedTo...] constructors are the [GameError]s built by the
    [except Exception as e] handlers around the text of [e]; the last three
    are built-in exceptions. *)
Inductive error :=
| NoActiveGameSession                 (* "No active game session" *)
| SessionExpiredOrInvalid             (* "Game session expired or invalid" *)
| SessionHasExpired                   (* "Game session has expired" *)
| InvalidOrExpiredSession             (* "Invalid or expired game session" *)
| NumberMustBeBetween (lo hi : Z)     (* "Number must be between lo and hi" *)
| GuessMustBeInteger                  (* "Guess must be an integer" *)
| GuessMustBeBetween (lo hi : Z)      (* "Guess must be between lo and hi" *)
| CannotSetTarget                     (* "Cannot set target number at this time" *)
| InvalidCustomRangeFormat            (* "Invalid custom range format" *)
| RangeValuesMustBeIntegers           (* "Range values must be integers" *)
| MinimumAtLeastOne                   (* "Minimum value must be at least 1" *)
| MaximumGreaterThanMinimum           (* "Maximum value must be greater than minimum value" *)
| MaximumTooLarge                     (* "Maximum value cannot exceed 1,000,000" *)
| InvalidDifficulty (d : string)      (* "Invalid difficulty level: d" *)
| BothNamesRequired                   (* "Both player names are required" *)
| PlayersMustDiffer                   (* "Players must have different names" *)
| InvalidScoreMode                    (* "Invalid score mode" *)
| FailedToStartGame (cause : error)   (* "Failed to start game: ..." *)
| FailedToProcessGuess (cause : error)(* "Failed to process guess: ..." *)
| FailedToEndGame (cause : error)     (* "Failed to end game: ..." *)
| FailedToSaveScore (cause : error)   (* "Failed to save score: ..." *)
| KeyError (key : string)             (* a missing dictionary key *)
| TypeError                           (* ['>'] between [int] and [NoneType] *)
| StorageError.                       (* [OSError] / [JSONDecodeError] of the score files *)

(** ** Sessions and the manager's state *)

Record game := Game {
  mode : string;                      (* 'single' | 'multi' *)
  target : option Z;                  (* [None] is Python's [None] *)
  attempts : Z;
  max_attempts : Z;
  range : Z * Z;
  start_time : Z;
  difficulty : option string;         (* key of single sessions *)
  status : option string;             (* key of multi sessions *)
  current_round : option Z;           (* key of multi sessions *)
  player1 : option string;            (* key of multi sessions *)
  player2 : option string;            (* key of multi sessions *)
  scores : option (list (string * Z)) (* key of multi sessions *)
}.

Definition with_attempts (n : Z) (g : game) : game :=
  Game (mode g) (target g) n (max_attempts g) (range g) (start_time g)
       (difficulty g) (status g) (current_round g) (player1 g) (player2 g)
       (scores g).

Definition with_target (t : option Z) (g : game) : game :=
  Game (mode g) t (attempts g) (max_attempts g) (range g) (start_time g)
       (difficulty g) (status g) (current_round g) (player1 g) (player2 g)
       (scores g).

Definition with_status (s : string) (g : game) : game :=
  Game (mode g) (target g) (attempts g) (max_attempts g) (range g)
       (start_time g) (difficulty g) (Some s) (current_round g) (player1 g)
       (player2 g) (scores g).

(** A score file on disk: either it cannot be opened or parsed, or it holds
    a flat JSON object from keys to integers. *)
Inductive score_file :=
| Unreadable
| Json (table : gmap string Z).

Record GameManager := Manager {
  active_games : gmap string game;
  lock_held : bool;                   (* [self._lock] is taken *)
  single_scores_file : score_file;    (* data/singleplayer_scores.json *)
  multi_scores_file : score_file;     (* data/multiplayer_scores.json *)
  storage_writable : bool;            (* writing and replacing files succeeds *)
  cleanup_timers : nat                (* timers started by the sweep *)
}.

Definition set_active_games (m : gmap string game) (st : GameManager) :=
  Manager m (lock_held st) (single_scores_file st) (multi_scores_file st)
          (storage_writable st) (cleanup_timers st).

Definition set_lock (b : bool) (st : GameManager) :=
  Manager (active_games st) b (single_scores_file st) (multi_scores_file st)
          (storage_writable st) (cleanup_timers st).

Definition set_scores_file (md : string) (f : score_file) (st : GameManager) :=
  if String.eqb md "single"
  then Manager (active_games st) (lock_held st) f (multi_scores_file st)
               (storage_writable st) (cleanup_timers st)
  else Manager (active_games st) (lock_held st) (single_scores_file st) f
               (storage_writable st) (cleanup_timers st).

Definition scores_file (md : string) (st : GameManager) : score_file :=
  if String.eqb md "single" then single_scores_file st
  else multi_scores_file st.

Definition start_timer (st : GameManager) :=
  Manager (active_games st) (lock_held st) (single_scores_file st)
          (multi_scores_file st) (storage_writable st)
          (S (cleanup_timers st)).

(** ** The monad of the manager's methods *)

Inductive outcome (A : Type) :=
| Returned (a : A)
| Raised (e : error)
| Blocked.                            (* waits for ever on the lock *)
Arguments Returned {A} a.
Arguments Raised {A} e.
Arguments Blocked {A}.

Definition M (A : Type) : Type := GameManager -> outcome A * GameManager.

Definition ret {A} (a : A) : M A := fun st => (Returned a, st).
Definition raise {A} (e : error) : M A := fun st => (Raised e, st).

Definition bind {A B} (m : M A) (k : A -> M B) : M B := fun st =>
  match m st with
  | (Returned a, st') => k a st'
  | (Raised e, st') => (Raised e, st')
  | (Blocked, st') => (Blocked, st')
  end.

(** [try: m except Exception as e: h e] *)
Definition try_except {A} (m : M A) (h : error -> M A) : M A := fun st =>
  match m st with
  | (Raised e, st') => h e st'
  | r => r
  end.

(** [with self._lock: m].  [threading.Lock] is not reentrant: acquiring it
    while it is held blocks, whoever holds it.  It is released when the
    body returns or raises. *)
Definition with_lock {A} (m : M A) : M A := fun st =>
  if lock_held st then (Blocked, st)
  else match m (set_lock true st) with
       | (Blocked, st') => (Blocked, st')
       | (r, st') => (r, set_lock false st')
       end.

Definition get_state : M GameManager := fun st => (Returned st, st).
Definition modify (f : GameManager -> GameManager) : M unit :=
  fun st => (Returned tt, f st).

Notation "x <- m ;; k" := (bind m (fun x => k))
  (at level 100, m at next level, right associativity).
Notation "m ;;; k" := (bind m (fun _ => k))
  (at level 100, right associativity).

(** ** Constants of [GameManager.__init__] *)

Definition MAX_ATTEMPTS (md : string) : Z :=
  if String.eqb md "single" then 6 else 8.

Definition RANGES (d : string) : option (Z * Z) :=
  if String.eqb d "easy" then Some (1, 50)
  else if String.eqb d "medium" then Some (1, 100)
  else if String.eqb d "hard" then Some (1, 500)
  else None.

Definition SESSION_TIMEOUT : Z := 30 * 60.

(** [(now - start).seconds]: the seconds field of the normalised
    [timedelta] (days, seconds in [0, 86400), microseconds in [0, 10^6)). *)
Definition timedelta_seconds (now start : Z) : Z :=
  ((now - start) / 1000000) mod 86400.

(** [(now - start).total_seconds()], in whole microseconds: the elapsed
    time itself. *)
Definition elapsed_us (now start : Z) : Z := now - start.

Definition seconds (n : Z) : Z := n * 1000000.

(** ** Results returned to the caller *)

(** The dictionary returned by [process_guess]; ['message'] is a fixed
    sentence around the target, kept here as the target it prints. *)
Inductive guess_result :=
| Win (attempts_used : Z) (revealed : option Z)
| Lose (revealed : option Z)
| Continue (hint : string) (attempts_used remaining : Z).

Record start_result := StartResult {
  res_game_id : string;
  res_range : Z * Z;
  res_max_attempts : Z
}.

(** ** Validation helpers *)

Definition _validate_game_id (game_id : string) : M unit :=
  st <- get_state ;;
  match active_games st !! game_id with
  | None => raise InvalidOrExpiredSession
  | Some _ => ret tt
  end.

Definition _validate_number_range (number : pyval) (range_min range_max : Z)
  : M unit :=
  match as_int number with
  | None => raise (NumberMustBeBetween range_min range_max)
  | Some n =>
      if (n <? range_min) || (n >? range_max)
      then raise (NumberMustBeBetween range_min range_max)
      else ret tt
  end.

Definition _validate_custom_range (range_min range_max : pyval) : M (Z * Z) :=
  match as_int range_min, as_int range_max with
  | Some lo, Some hi =>
      if lo <? 1 then raise MinimumAtLeastOne
      else if hi <=? lo then raise MaximumGreaterThanMinimum
      else if hi >? 1000000 then raise MaximumTooLarge
      else ret (lo, hi)
  | _, _ => raise RangeValuesMustBeIntegers
  end.

(** [self.active_games.pop(game_id)]: a [KeyError] when the key is absent. *)
Definition pop_game (game_id : string) : M unit :=
  st <- get_state ;;
  match active_games st !! game_id with
  | None => raise (KeyError game_id)
  | Some _ => modify (set_active_games (delete game_id (active_games st)))
  end.

(** ** [end_game] *)

Definition end_game (game_id : string) : M unit :=
  try_except
    (with_lock
       (st <- get_state ;;
        match active_games st !! game_id with
        | Some _ =>
            (* [self.active_games.pop(game_id, None)] *)
            modify (set_active_games (delete game_id (active_games st)))
        | None => ret tt
        end))
    (fun e => raise (FailedToEndGame e)).

(** ** [_validate_game_session] *)

Definition _validate_game_session (now : Z) (game_id : string) : M game :=
  if String.eqb game_id "" then raise NoActiveGameSession
  else
    st <- get_state ;;
    match active_games st !! game_id with
    | None => raise SessionExpiredOrInvalid
    | Some g =>
        if timedelta_seconds now (start_time g) >? SESSION_TIMEOUT
        then end_game game_id ;;; raise SessionHasExpired
        else ret g
    end.

(** ** The score store: [get_scores] and [_save_score] *)

Definition read_scores (md : string) : M (gmap string Z) :=
  st <- get_state ;;
  match scores_file md st with
  | Unreadable => raise StorageError
  | Json table => ret table
  end.

(** Dump to [filename.tmp], then [os.replace] it over [filename]. *)
Definition write_scores (md : string) (table : gmap string Z) : M unit :=
  st <- get_state ;;
  if storage_writable st then modify (set_scores_file md (Json table))
  else raise StorageError.

Definition get_scores (md : string) : M (gmap string Z) :=
  if negb (String.eqb md "single" || String.eqb md "multi")
  then raise InvalidScoreMode
  else try_except (read_scores md) (fun _ => ret ∅).

Definition _save_score (md identifier : string) (score_data : Z) : M unit :=
  try_except
    (with_lock
       (table <- read_scores md ;;
        let table' :=
          if String.eqb md "single" then
            match table !! identifier with
            | None => <[identifier := score_data]> table
            | Some old =>
                if score_data <? old
                then <[identifier := score_data]> table
                else table
            end
          else <[identifier := score_data]> table in
        write_scores md table'))
    (fun e => raise (FailedToSaveScore e)).

(** ** [process_guess] and its handlers *)

Definition _handle_win (g : game) : M guess_result :=
  (if String.eqb (mode g) "single" then
     match difficulty g with
     | None => raise (KeyError "difficulty")
     | Some d => _save_score "single" d (attempts g)
     end
   else ret tt) ;;;
  ret (Win (attempts g) (target g)).

Definition _handle_loss (g : game) : M guess_result :=
  ret (Lose (target g)).

Definition _handle_continue (g : game) (guess : Z) : M guess_result :=
  match target g with
  | None => raise TypeError           (* [guess > None] *)
  | Some t =>
      ret (Continue (if guess >? t then "lower" else "higher")
                    (attempts g) (max_attempts g - attempts g))
  end.

Definition process_guess (now : Z) (game_id : string) (guess : pyval)
  : M guess_result :=
  try_except
    (g <- _validate_game_session now game_id ;;
     match as_int guess with
     | None => raise GuessMustBeInteger
     | Some n =>
         let '(range_min, range_max) := range g in
         if (n <? range_min) || (n >? range_max)
         then raise (GuessMustBeBetween range_min range_max)
         else
           (* [game['attempts'] += 1] on the dictionary held by the table *)
           let g' := with_attempts (attempts g + 1) g in
           modify (fun st =>
             set_active_games (<[game_id := g']> (active_games st)) st) ;;;
           if decide (target g' = Some n) then
             result <- _handle_win g' ;;
             pop_game game_id ;;;
             ret result
           else if attempts g' >=? max_attempts g' then
             result <- _handle_loss g' ;;
             pop_game game_id ;;;
             ret result
           else _handle_continue g' n
     end)
    (fun e => raise (FailedToProcessGuess e)).

(** ** [set_target_number] *)

Definition set_target_number (game_id : string) (number : pyval) : M unit :=
  _validate_game_id game_id ;;;
  st <- get_state ;;
  match active_games st !! game_id with
  | None => raise (KeyError game_id)
  | Some g =>
      match status g with
      | None => raise (KeyError "status")
      | Some s =>
          if negb (String.eqb s "waiting_for_number") then raise CannotSetTarget
          else
            _validate_number_range number (range g).1 (range g).2 ;;;
            let g' := with_attempts 0
                        (with_status "in_progress"
                           (with_target (as_int number) g)) in
            modify (set_active_games (<[game_id := g']> (active_games st)))
      end
  end.

(** ** [_cleanup_expired_sessions] *)

Definition expired_ids (now : Z) (games : gmap string game) : list string :=
  (map_to_list
     (filter (fun kv => SESSION_TIMEOUT < timedelta_seconds now (start_time kv.2))
             games)).*1.

(** [for game_id in expired: try: self.end_game(game_id) except ...: log] *)
Fixpoint cleanup_loop (ids : list string) : M unit :=
  match ids with
  | [] => ret tt
  | game_id :: rest =>
      try_except (end_game game_id) (fun _ => ret tt) ;;;
      cleanup_loop rest
  end.

Definition _cleanup_expired_sessions (now : Z) : M unit :=
  with_lock
    (st <- get_state ;;
     cleanup_loop (expired_ids now (active_games st))) ;;;
  modify start_timer.

(** ** [start_singleplayer] and [start_multiplayer] *)

(** [random.randint(lo, hi)] for [lo <= hi], as a function of the entropy
    the generator consumes: every value of the range is drawn by some
    entropy, and no other value is. *)
Definition randint (entropy lo hi : Z) : Z := lo + entropy mod (hi - lo + 1).

Definition start_singleplayer (uuid4 : string) (entropy now : Z)
    (diff : string) (custom_range : option (list pyval)) : M start_result :=
  try_except
    (r <- (if String.eqb diff "custom" then
             match custom_range with
             | Some [range_min; range_max] =>
                 _validate_custom_range range_min range_max
             | _ => raise InvalidCustomRangeFormat
             end
           else
             match RANGES diff with
             | Some r => ret r
             | None => raise (InvalidDifficulty diff)
             end) ;;
     let game_id := uuid4 in
     let tgt := randint entropy r.1 r.2 in
     with_lock
       (modify (fun st => set_active_games
          (<[game_id := Game "single" (Some tgt) 0 (MAX_ATTEMPTS "single") r
                            now (Some diff) None None None None None]>
             (active_games st)) st)) ;;;
     ret (StartResult game_id r (MAX_ATTEMPTS "single")))
    (fun e => raise (FailedToStartGame e)).

Definition start_multiplayer (uuid4 : string) (now : Z) (p1 p2 : string)
  : M start_result :=
  if String.eqb p1 "" || String.eqb p2 "" then raise BothNamesRequired
  else if String.eqb p1 p2 then raise PlayersMustDiffer
  else
    let game_id := uuid4 in
    let g := Game "multi" None 0 (MAX_ATTEMPTS "multi") (1, 100) now None
                  (Some "waiting_for_number") (Some 1) (Some p1) (Some p2)
                  (Some [(p1, 0); (p2, 0)]) in
    with_lock
      (modify (fun st =>
         set_active_games (<[game_id := g]> (active_games st)) st)) ;;;
    ret (StartResult game_id (range g) (max_attempts g)).

(** ** Vocabulary of the specification *)

(** The three gameplay outcomes. *)
Inductive outcome_kind := KWin | KLose | KContinue.

Definition kind (r : guess_result) : outcome_kind :=
  match r with
  | Win _ _ => KWin
  | Lose _ => KLose
  | Continue _ _ _ => KContinue
  end.

(** The error taxonomy: which messages are session errors (missing,
    expired, wrong phase) and which are validation errors; the wrapper that
    [process_guess] puts around a message keeps its category. *)
Fixpoint is_session_error (e : error) : bool :=
  match e with
  | NoActiveGameSession | SessionExpiredOrInvalid | SessionHasExpired
  | InvalidOrExpiredSession | CannotSetTarget => true
  | FailedToProcessGuess e' => is_session_error e'
  | _ => false
  end.

Fixpoint is_validation_error (e : error) : bool :=
  match e with
  | NumberMustBeBetween _ _ | GuessMustBeInteger | GuessMustBeBetween _ _
  | InvalidCustomRangeFormat | RangeValuesMustBeIntegers | MinimumAtLeastOne
  | MaximumGreaterThanMinimum | MaximumTooLarge | InvalidDifficulty _
  | BothNamesRequired | PlayersMustDiffer | InvalidScoreMode => true
  | FailedToStartGame e' | FailedToProcessGuess e' => is_validation_error e'
  | _ => false
  end.

Definition fails_with_session_error {A} (r : outcome A) : Prop :=
  exists e, r = Raised e /\ is_session_error e = true.

(** A live session: registered under a usable id and not timed out by the
    check of [_validate_game_session]. *)
Definition live_session (now : Z) (game_id : string) (g : game)
    (st : GameManager) : Prop :=
  game_id <> ""%string /\
  active_games st !! game_id = Some g /\
  timedelta_seconds now (start_time g) <= SESSION_TIMEOUT.

(** A valid guess: an integer inside the inclusive range of the session. *)
Definition valid_guess (g : game) (guess : pyval) (n : Z) : Prop :=
  as_int guess = Some n /\ (range g).1 <= n <= (range g).2.

Definition invalid_guess (g : game) (guess : pyval) : Prop :=
  as_int guess = None \/
  exists n, as_int guess = Some n /\ (n < (range g).1 \/ (range g).2 < n).

(** The outcome the specification prescribes for a valid guess [n] against
    the target [t], in its order: win, else lose, else continue. *)
Definition spec_outcome (g : game) (t n : Z) : guess_result :=
  let a := attempts g + 1 in
  if n =? t then Win a (Some t)
  else if max_attempts g <=? a then Lose (Some t)
  else Continue (if t <? n then "lower" else "higher") a (max_attempts g - a).

(** The table after [game_id] was removed, and after its session was
    replaced. *)
Definition without (game_id : string) (st : GameManager) : GameManager :=
  set_active_games (delete game_id (active_games st)) st.

Definition with_game (game_id : string) (g : game) (st : GameManager)
  : GameManager :=
  set_active_games (<[game_id := g]> (active_games st)) st.

(** The session after a successful [set_target_number]. *)
Definition target_set (n : Z) (g : game) : game :=
  with_attempts 0 (with_status "in_progress" (with_target (Some n) g)).

(** The kind of outcome prescribed for a valid guess [n], whether or not
    the target is set. *)
Definition spec_kind (g : game) (n : Z) : outcome_kind :=
  if decide (target g = Some n) then KWin
  else if max_attempts g <=? attempts g + 1 then KLose
  else KContinue.

(** The score table after [put(mode, key, value)], as [_save_score]
    computes it before writing it back. *)
Definition put (md identifier : string) (score_data : Z)
    (table : gmap string Z) : gmap string Z :=
  if String.eqb md "single" then
    match table !! identifier with
    | None => <[identifier := score_data]> table
    | Some old =>
        if score_data <? old then <[identifier := score_data]> table
        else table
    end
  else <[identifier := score_data]> table.

(** What a reader of the score store sees under [key]. *)
Definition stored_score (md key : string) (st : GameManager) : option Z :=
  match get_scores md st with
  | (Returned table, _) => table !! key
  | _ => None
  end.

(** Score persistence fails for single mode: the table cannot be read, or
    cannot be written back. *)
Definition persistence_fails (st : GameManager) : Prop :=
  single_scores_file st = Unreadable \/ storage_writable st = false.

(** ** Sequences of calls *)

(** The operations a front end or the timer invokes on the registry. *)
Inductive op :=
| create_single (uuid4 : string) (entropy now : Z) (diff : string)
                (custom_range : option (list pyval))
| create_multi (uuid4 : string) (now : Z) (p1 p2 : string)
| set_target (game_id : string) (number : pyval)
| guess (now : Z) (game_id : string) (value : pyval)
| end_session (game_id : string)
| expire_sweep (now : Z).

(** The manager after one call; what the call returned, raised, or whether
    its thread hangs, is the caller's business. *)
Definition run_op (o : op) (st : GameManager) : GameManager :=
  match o with
  | create_single u e now d r => (start_singleplayer u e now d r st).2
  | create_multi u now p1 p2 => (start_multiplayer u now p1 p2 st).2
  | set_target i v => (set_target_number i v st).2
  | guess now i v => (process_guess now i v st).2
  | end_session i => (end_game i st).2
  | expire_sweep now => (_cleanup_expired_sessions now st).2
  end.

Definition run_ops (ops : list op) (st : GameManager) : GameManager :=
  foldl (fun s o => run_op o s) st ops.

(** The manager as [__init__] leaves it: no session, the lock free, the
    first sweep scheduled, and the score files as found on disk. *)
Definition init (single_file multi_file : score_file) (writable : bool)
  : GameManager :=
  Manager ∅ false single_file multi_file writable 1.

(** The invariants of the data model. *)
Definition attempts_bounded (g : game) : Prop :=
  attempts g <= max_attempts g.

Definition target_in_range (g : game) : Prop :=
  forall t, target g = Some t -> (range g).1 <= t <= (range g).2.

(** ** The claims that fail, as stated *)

(** A later call that names a session id. *)
Inductive session_call :=
| call_set_target (number : pyval)
| call_process_guess (now : Z) (value : pyval)
| call_end_session.

Definition call_fails_with_session_error (game_id : string)
    (c : session_call) (st : GameManager) : Prop :=
  match c with
  | call_set_target v =>
      fails_with_session_error (set_target_number game_id v st).1
  | call_process_guess now v =>
      fails_with_session_error (process_guess now game_id v st).1
  | call_end_session => fails_with_session_error (end_game game_id st).1
  end.

(** C1 as stated: a valid guess on a live session returns the prescribed
    outcome, and after win or lose every later call naming the id fails
    with a session error. *)
Definition exactly_one_outcome_then_gone (now : Z) (game_id : string)
    (value : pyval) (st : GameManager) : Prop :=
  forall g n, live_session now game_id g st -> valid_guess g value n ->
    exists r st',
      process_guess now game_id value st = (Returned r, st') /\
      kind r = spec_kind g n /\
      (kind r <> KContinue ->
         active_games st' !! game_id = None /\
         forall c, call_fails_with_session_error game_id c st').

(** C4 as stated: a winning single-mode guess returns the win outcome even
    though score persistence fails. *)
Definition win_survives_persistence_failure (now : Z) (game_id : string)
    (value : pyval) (st : GameManager) : Prop :=
  forall g n, live_session now game_id g st -> valid_guess g value n ->
    mode g = "single"%string -> target g = Some n ->
    persistence_fails st ->
    exists st',
      process_guess now game_id value st =
        (Returned (Win (attempts g + 1) (Some n)), st').

(** ** Example managers *)

Definition healthy : GameManager := init (Json ∅) (Json ∅) true.

(** The single scores file exists but does not parse. *)
Definition corrupt : GameManager := init Unreadable (Json ∅) true.

(** One easy single-player session, created at time 0; the generator
    draws 7. *)
Definition one_single (st : GameManager) : GameManager :=
  run_op (create_single "g1" 6 0 "easy" None) st.

(** One multiplayer session, created at time 0, waiting for its number. *)
Definition one_multi (st : GameManager) : GameManager :=
  run_op (create_multi "g2" 0 "ann" "bob") st.

(** The sessions those two calls register. *)
Definition easy_session : game :=
  Game "single" (Some 7) 0 6 (1, 50) 0 (Some "easy"%string) None None None
       None None.

Definition waiting_session : game :=
  Game "multi" None 0 8 (1, 100) 0 None (Some "waiting_for_number"%string)
       (Some 1) (Some "ann"%string) (Some "bob"%string)
       (Some [("ann"%string, 0); ("bob"%string, 0)]).

(** ** Vocabulary of the further properties *)

(** Every way a call of [process_guess] can go. *)
Inductive guess_case (now : Z) (game_id : string) (value : pyval)
    (st : GameManager) : outcome guess_result -> GameManager -> Prop :=
| case_no_id :
    game_id = ""%string ->
    guess_case now game_id value st
      (Raised (FailedToProcessGuess NoActiveGameSession)) st
| case_absent :
    active_games st !! game_id = None ->
    guess_case now game_id value st
      (Raised (FailedToProcessGuess SessionExpiredOrInvalid)) st
| case_expired g :
    active_games st !! game_id = Some g ->
    SESSION_TIMEOUT < timedelta_seconds now (start_time g) ->
    lock_held st = false ->
    guess_case now game_id value st
      (Raised (FailedToProcessGuess SessionHasExpired)) (without game_id st)
| case_expired_blocked g :
    active_games st !! game_id = Some g ->
    SESSION_TIMEOUT < timedelta_seconds now (start_time g) ->
    lock_held st = true ->
    guess_case now game_id value st Blocked st
| case_invalid g e :
    live_session now game_id g st -> invalid_guess g value ->
    e = GuessMustBeInteger \/ e = GuessMustBeBetween (range g).1 (range g).2 ->
    guess_case now game_id value st (Raised (FailedToProcessGuess e)) st
| case_continue g n t :
    live_session now game_id g st -> valid_guess g value n ->
    target g = Some t -> n <> t -> attempts g + 1 < max_attempts g ->
    guess_case now game_id value st
      (Returned (Continue (if n >? t then "lower" else "higher")
                   (attempts g + 1) (max_attempts g - (attempts g + 1))))
      (with_game game_id (with_attempts (attempts g + 1) g) st)
| case_unset g n :
    live_session now game_id g st -> valid_guess g value n ->
    target g = None -> attempts g + 1 < max_attempts g ->
    guess_case now game_id value st
      (Raised (FailedToProcessGuess TypeError))
      (with_game game_id (with_attempts (attempts g + 1) g) st)
| case_lose g n :
    live_session now game_id g st -> valid_guess g value n ->
    target g <> Some n -> max_attempts g <= attempts g + 1 ->
    guess_case now game_id value st
      (Returned (Lose (target g))) (without game_id st)
| case_win_unsaved g n :
    live_session now game_id g st -> valid_guess g value n ->
    target g = Some n -> mode g <> "single"%string ->
    guess_case now game_id value st
      (Returned (Win (attempts g + 1) (Some n))) (without game_id st)
| case_win_no_difficulty g n :
    live_session now game_id g st -> valid_guess g value n ->
    target g = Some n -> mode g = "single"%string -> difficulty g = None ->
    guess_case now game_id value st
      (Raised (FailedToProcessGuess (KeyError "difficulty")))
      (with_game game_id (with_attempts (attempts g + 1) g) st)
| case_win_saved g n d table :
    live_session now game_id g st -> valid_guess g value n ->
    target g = Some n -> mode g = "single"%string -> difficulty g = Some d ->
    lock_held st = false -> single_scores_file st = Json table ->
    storage_writable st = true ->
    guess_case now game_id value st
      (Returned (Win (attempts g + 1) (Some n)))
      (set_scores_file "single"
         (Json (put "single" d (attempts g + 1) table)) (without game_id st))
| case_win_store_fails g n d :
    live_session now game_id g st -> valid_guess g value n ->
    target g = Some n -> mode g = "single"%string -> difficulty g = Some d ->
    lock_held st = false -> persistence_fails st ->
    guess_case now game_id value st
      (Raised (FailedToProcessGuess (FailedToSaveScore StorageError)))
      (with_game game_id (with_attempts (attempts g + 1) g) st)
| case_win_blocked g n d :
    live_session now game_id g st -> valid_guess g value n ->
    target g = Some n -> mode g = "single"%string -> difficulty g = Some d ->
    lock_held st = true ->
    guess_case now game_id value st Blocked
      (with_game game_id (with_attempts (attempts g + 1) g) st).

(** A session the sweep selects. *)
Definition selected_by_sweep (now : Z) (st : GameManager) : Prop :=
  exists i g, active_games st !! i = Some g /\
              SESSION_TIMEOUT < timedelta_seconds now (start_time g).

(** Successive single-mode saves under one key. *)
Definition save_all (key : string) (values : list Z) (st : GameManager)
  : GameManager :=
  foldl (fun s v => (_save_score "single" key v s).2) st values.

(** The better of a stored score and a new one. *)
Definition better (stored : option Z) (v : Z) : Z :=
  match stored with
  | Some old => if v <? old then v else old
  | None => v
  end.

(** The session [start_singleplayer] registers. *)
Definition single_session (t : Z) (r : Z * Z) (now : Z) (diff : string) : game :=
  Game "single" (Some t) 0 6 r now (Some diff) None None None None None.

(** The session [start_multiplayer] registers. *)
Definition multi_session (now : Z) (p1 p2 : string) : game :=
  Game "multi" None 0 8 (1, 100) now None (Some "waiting_for_number"%string)
       (Some 1) (Some p1) (Some p2) (Some [(p1, 0); (p2, 0)]).

(** A custom range the manager accepts. *)
Definition acceptable_custom_range (lo hi : Z) : Prop :=
  1 <= lo /\ lo < hi /\ hi <= 1000000.

(** The shape of the sessions the manager builds. *)
Definition wf_session (g : game) : Prop :=
  0 <= attempts g /\
  1 <= (range g).1 < (range g).2 /\
  target_in_range g /\
  ((mode g = "single"%string /\ max_attempts g = 6 /\ is_Some (target g) /\
    is_Some (difficulty g) /\ status g = None) \/
   (mode g = "multi"%string /\ max_attempts g = 8 /\ range g = (1, 100) /\
    difficulty g = None /\
    ((status g = Some "waiting_for_number"%string /\ target g = None) \/
     (status g = Some "in_progress"%string /\ is_Some (target g))))).

Definition registry_wf (st : GameManager) : Prop :=
  forall i g, active_games st !! i = Some g -> wf_session g.

Definition strictly_bounded (st : GameManager) : Prop :=
  forall i g, active_games st !! i = Some g -> attempts g < max_attempts g.

(** How one call may change the table: it is left alone, loses the id, or
    gets a session [g'] under the id. *)
Definition table_step (game_id : string) (P : game -> Prop)
    (st st' : GameManager) : Prop :=
  active_games st' = active_games st \/
  active_games st' = delete game_id (active_games st) \/
  exists g', P g' /\ active_games st' = <[game_id := g']> (active_games st).

(** The call registers a session under [i]. *)
Definition creates (o : op) (i : string) : Prop :=
  match o with
  | create_single u _ _ _ _ => u = i
  | create_multi u _ _ _ => u = i
  | _ => False
  end.

(** The fields no call changes once a session exists. *)
Definition same_identity (g g' : game) : Prop :=
  mode g' = mode g /\ range g' = range g /\
  max_attempts g' = max_attempts g /\ start_time g' = start_time g /\
  difficulty g' = difficulty g /\ player1 g' = player1 g /\
  player2 g' = player2 g.

(** Successive guesses on one session: what each call gave, and the manager
    at the end. *)
Fixpoint play (game_id : string) (moves : list (Z * pyval))
    (st : GameManager) : list (outcome guess_result) * GameManager :=
  match moves with
  | [] => ([], st)
  | (now, value) :: rest =>
      let r := process_guess now game_id value st in
      let rs := play game_id rest r.2 in
      (r.1 :: rs.1, rs.2)
  end.

(** A guess made in time, valid, and wrong. *)
Definition wrong_move (g : game) (t : Z) (move : Z * pyval) : Prop :=
  timedelta_seconds move.1 (start_time g) <= SESSION_TIMEOUT /\
  exists n, valid_guess g move.2 n /\ n <> t.

Definition is_continue (r : outcome guess_result) : Prop :=
  exists hint a remaining, r = Returned (Continue hint a remaining).

(** ** Basic facts about the helpers *)

Ltac unfold_monad :=
  unfold bind, ret, raise, try_except, with_lock, get_state, modify in *.

Lemma set_active_games_id (st : GameManager) :
  set_active_games (active_games st) st = st.
Proof. by destruct st. Qed.

Lemma with_game_id (game_id : string) (g : game) (st : GameManager) :
  active_games st !! game_id = Some g -> with_game game_id g st = st.
Proof.
  intros H. unfold with_game. rewrite insert_id; [|done].
  apply set_active_games_id.
Qed.

Lemma validate_live (now : Z) (game_id : string) (g : game)
    (st : GameManager) :
  live_session now game_id g st ->
  _validate_game_session now game_id st = (Returned g, st).
Proof.
  intros (Hid & Hg & Ht). unfold _validate_game_session.
  apply String.eqb_neq in Hid. rewrite Hid. unfold_monad. rewrite Hg.
  destruct (_ >? _) eqn:E; [apply Z.gtb_lt in E; lia | done].
Qed.

Lemma in_range_test (n lo hi : Z) :
  lo <= n <= hi -> (n <? lo) || (n >? hi) = false.
Proof.
  intros H. apply orb_false_intro; [apply Z.ltb_ge; lia|].
  destruct (_ >? _) eqn:E; [apply Z.gtb_lt in E; lia | done].
Qed.

Lemma out_of_range_test (n lo hi : Z) :
  n < lo \/ hi < n -> (n <? lo) || (n >? hi) = true.
Proof.
  intros [H|H]; apply orb_true_iff; [left; by apply Z.ltb_lt|right].
  destruct (_ >? _) eqn:E; [done|]. 
  assert (~ hi < n) by (rewrite <- Z.gtb_lt; congruence). lia.
Qed.

Lemma pop_game_present game_id g st :
  pop_game game_id (with_game game_id g st) = (Returned tt, without game_id st).
Proof.
  unfold pop_game, with_game, without. unfold_monad. simpl.
  rewrite lookup_insert_eq. simpl. by rewrite delete_insert_eq.
Qed.

Ltac enter_guess Hl Hv :=
  let Hn := fresh "Hn" in let Hr := fresh "Hr" in
  destruct Hv as [Hn Hr];
  unfold process_guess, try_except, bind;
  rewrite (validate_live _ _ _ _ Hl), Hn;
  destruct (range _) as [? ?]; simpl in Hr;
  rewrite (in_range_test _ _ _ Hr); unfold modify;
  change (set_active_games (<[?i := ?x]> (active_games ?s)) ?s)
    with (with_game i x s).


Lemma geb_true (a b : Z) : b <= a -> (a >=? b) = true.
Proof. intros. rewrite Z.geb_leb. by apply Z.leb_le. Qed.
Lemma geb_false (a b : Z) : a < b -> (a >=? b) = false.
Proof. intros. rewrite Z.geb_leb. by apply Z.leb_gt. Qed.

Ltac at_target :=
  change (target (with_attempts ?a ?g)) with (target g);
  change (attempts (with_attempts ?a ?g)) with a;
  change (max_attempts (with_attempts ?a ?g)) with (max_attempts g);
  change (mode (with_attempts ?a ?g)) with (mode g);
  change (difficulty (with_attempts ?a ?g)) with (difficulty g).

Lemma guess_miss_lose now game_id guess st g n :
  live_session now game_id g st -> valid_guess g guess n ->
  target g <> Some n -> max_attempts g <= attempts g + 1 ->
  process_guess now game_id guess st =
    (Returned (Lose (target g)), without game_id st).
Proof.
  intros Hl Hv Hne Hmax. enter_guess Hl Hv. at_target.
  destruct (decide _) as [|_]; [done|].
  rewrite (geb_true _ _ Hmax). unfold _handle_loss, ret. at_target.
  by rewrite pop_game_present.
Qed.

Lemma guess_miss_continue now game_id guess st g n t :
  live_session now game_id g st -> valid_guess g guess n ->
  target g = Some t -> n <> t -> attempts g + 1 < max_attempts g ->
  process_guess now game_id guess st =
    (Returned (Continue (if n >? t then "lower" else "higher")
                        (attempts g + 1) (max_attempts g - (attempts g + 1))),
     with_game game_id (with_attempts (attempts g + 1) g) st).
Proof.
  intros Hl Hv Ht Hne Hmax. enter_guess Hl Hv. at_target.
  destruct (decide _) as [|_]; [congruence|].
  rewrite (geb_false _ _ Hmax). unfold _handle_continue, ret. at_target.
  by rewrite Ht.
Qed.

Lemma guess_unset_error now game_id guess st g n :
  live_session now game_id g st -> valid_guess g guess n ->
  target g = None -> attempts g + 1 < max_attempts g ->
  process_guess now game_id guess st =
    (Raised (FailedToProcessGuess TypeError),
     with_game game_id (with_attempts (attempts g + 1) g) st).
Proof.
  intros Hl Hv Ht Hmax. enter_guess Hl Hv. at_target.
  destruct (decide _) as [|_]; [congruence|].
  rewrite (geb_false _ _ Hmax). unfold _handle_continue, raise. at_target.
  by rewrite Ht.
Qed.

Lemma guess_win_not_single now game_id guess st g n :
  live_session now game_id g st -> valid_guess g guess n ->
  target g = Some n -> mode g <> "single"%string ->
  process_guess now game_id guess st =
    (Returned (Win (attempts g + 1) (Some n)), without game_id st).
Proof.
  intros Hl Hv Ht Hm. enter_guess Hl Hv. at_target.
  destruct (decide _) as [_|]; [|done].
  unfold _handle_win. at_target. apply String.eqb_neq in Hm. rewrite Hm.
  unfold_monad. rewrite Ht.
  by rewrite pop_game_present.
Qed.


Lemma save_score_ok md identifier score_data st table :
  lock_held st = false -> scores_file md st = Json table ->
  storage_writable st = true ->
  _save_score md identifier score_data st =
    (Returned tt, set_scores_file md (Json (put md identifier score_data table)) st).
Proof.
  destruct st as [ag lk sf mf w tm]. simpl. intros -> Hf ->.
  unfold _save_score, read_scores, write_scores, put. unfold_monad. simpl.
  unfold scores_file, set_scores_file in *. simpl in *.
  destruct (String.eqb md "single"); subst; reflexivity.
Qed.

Lemma save_score_fails md identifier score_data st :
  lock_held st = false ->
  scores_file md st = Unreadable \/ storage_writable st = false ->
  _save_score md identifier score_data st =
    (Raised (FailedToSaveScore StorageError), st).
Proof.
  destruct st as [ag lk sf mf w tm]. simpl. intros -> Hf.
  unfold _save_score, read_scores, write_scores. unfold_monad. simpl.
  unfold scores_file in *. simpl in *.
  destruct (String.eqb md "single"); simpl in *.
  - destruct sf; [done|]. destruct Hf as [|Hw]; [done|]. by subst.
  - destruct mf; [done|]. destruct Hf as [|Hw]; [done|]. by subst.
Qed.

Lemma save_score_blocked md identifier score_data st :
  lock_held st = true ->
  _save_score md identifier score_data st = (Blocked, st).
Proof.
  intros Hl. unfold _save_score. unfold_monad. by rewrite Hl.
Qed.


Lemma without_scores_file game_id md f st :
  without game_id (set_scores_file md f st) = set_scores_file md f (without game_id st).
Proof. unfold without, set_scores_file. by destruct (String.eqb md "single"). Qed.

Lemma pop_game_after_save game_id g md f st :
  pop_game game_id (set_scores_file md f (with_game game_id g st)) =
    (Returned tt, set_scores_file md f (without game_id st)).
Proof.
  unfold pop_game, set_scores_file. unfold_monad.
  destruct (String.eqb md "single"); simpl;
    rewrite lookup_insert_eq; simpl; by rewrite delete_insert_eq.
Qed.

Ltac enter_win Hl Hv Ht Hm Hd :=
  enter_guess Hl Hv; at_target;
  destruct (decide _) as [_|]; [|done];
  unfold _handle_win; at_target; rewrite Hm, Hd; simpl String.eqb; cbv iota;
  unfold bind;
  change (set_active_games (<[?i := ?x]> (active_games ?s)) ?s)
    with (with_game i x s).

Lemma guess_win_single_saved now game_id guess st g n d table :
  live_session now game_id g st -> valid_guess g guess n ->
  target g = Some n -> mode g = "single"%string -> difficulty g = Some d ->
  lock_held st = false -> single_scores_file st = Json table ->
  storage_writable st = true ->
  process_guess now game_id guess st =
    (Returned (Win (attempts g + 1) (Some n)),
     set_scores_file "single" (Json (put "single" d (attempts g + 1) table))
       (without game_id st)).
Proof.
  intros Hl Hv Ht Hm Hd Hk Hf Hw. enter_win Hl Hv Ht Hm Hd.
  rewrite (save_score_ok "single" d _ _ table); [|done..].
  cbv beta iota. unfold ret at 1. cbv beta iota.
  rewrite pop_game_after_save. unfold ret. by rewrite Ht.
Qed.

Lemma guess_win_single_storage_failure now game_id guess st g n d :
  live_session now game_id g st -> valid_guess g guess n ->
  target g = Some n -> mode g = "single"%string -> difficulty g = Some d ->
  lock_held st = false ->
  single_scores_file st = Unreadable \/ storage_writable st = false ->
  process_guess now game_id guess st =
    (Raised (FailedToProcessGuess (FailedToSaveScore StorageError)),
     with_game game_id (with_attempts (attempts g + 1) g) st).
Proof.
  intros Hl Hv Ht Hm Hd Hk Hf. enter_win Hl Hv Ht Hm Hd.
  by rewrite (save_score_fails "single" d).
Qed.

Lemma guess_win_single_blocked now game_id guess st g n d :
  live_session now game_id g st -> valid_guess g guess n ->
  target g = Some n -> mode g = "single"%string -> difficulty g = Some d ->
  lock_held st = true ->
  process_guess now game_id guess st =
    (Blocked, with_game game_id (with_attempts (attempts g + 1) g) st).
Proof.
  intros Hl Hv Ht Hm Hd Hk. enter_win Hl Hv Ht Hm Hd.
  by rewrite (save_score_blocked "single" d).
Qed.

Lemma process_guess_invalid now game_id guess st g :
  live_session now game_id g st -> invalid_guess g guess ->
  exists e, process_guess now game_id guess st = (Raised (FailedToProcessGuess e), st)
    /\ (e = GuessMustBeInteger \/ e = GuessMustBeBetween (range g).1 (range g).2).
Proof.
  intros Hl Hi. unfold process_guess, try_except, bind.
  rewrite (validate_live _ _ _ _ Hl).
  destruct Hi as [Hn | (n & Hn & Hr)]; rewrite Hn.
  - eexists; split; [reflexivity|by left].
  - destruct (range g) as [lo hi] eqn:Er. simpl in Hr.
    rewrite (out_of_range_test _ _ _ Hr). eexists; split; [reflexivity|by right].
Qed.

Lemma set_lock_release (st : GameManager) :
  lock_held st = false -> set_lock false (set_lock true st) = st.
Proof. destruct st; simpl; by intros ->. Qed.

Lemma end_game_absent game_id st :
  lock_held st = false -> active_games st !! game_id = None ->
  end_game game_id st = (Returned tt, st).
Proof.
  intros Hk Hg. unfold end_game. unfold_monad. rewrite Hk. simpl.
  rewrite Hg. by rewrite set_lock_release.
Qed.

Lemma end_game_present game_id g st :
  lock_held st = false -> active_games st !! game_id = Some g ->
  end_game game_id st = (Returned tt, without game_id st).
Proof.
  intros Hk Hg. unfold end_game. unfold_monad. rewrite Hk. simpl.
  rewrite Hg. unfold without. destruct st; simpl in *. by subst.
Qed.

Lemma end_game_blocked game_id st :
  lock_held st = true -> end_game game_id st = (Blocked, st).
Proof. intros Hk. unfold end_game. unfold_monad. by rewrite Hk. Qed.

Lemma process_guess_absent now game_id value st :
  active_games st !! game_id = None ->
  exists e, process_guess now game_id value st = (Raised e, st) /\
            is_session_error e = true.
Proof.
  intros Hg. unfold process_guess, _validate_game_session.
  destruct (String.eqb game_id "") eqn:E; unfold_monad.
  - by eexists.
  - rewrite Hg. by eexists.
Qed.

Lemma set_target_absent game_id number st :
  active_games st !! game_id = None ->
  set_target_number game_id number st = (Raised InvalidOrExpiredSession, st).
Proof.
  intros Hg. unfold set_target_number, _validate_game_id. unfold_monad.
  by rewrite Hg.
Qed.

Lemma process_guess_expired now game_id value st g :
  game_id <> ""%string -> active_games st !! game_id = Some g ->
  SESSION_TIMEOUT < timedelta_seconds now (start_time g) ->
  lock_held st = false ->
  process_guess now game_id value st =
    (Raised (FailedToProcessGuess SessionHasExpired), without game_id st).
Proof.
  intros Hid Hg Ht Hk. unfold process_guess, _validate_game_session.
  apply String.eqb_neq in Hid. rewrite Hid. unfold try_except, bind, get_state.
  rewrite Hg. apply Z.gtb_lt in Ht. rewrite Ht.
  by rewrite (end_game_present _ g).
Qed.

Lemma lookup_without game_id st : active_games (without game_id st) !! game_id = None.
Proof. unfold without. destruct st; simpl. apply lookup_delete_eq. Qed.

Lemma lookup_with_game game_id g st :
  active_games (with_game game_id g st) !! game_id = Some g.
Proof. unfold with_game. destruct st; simpl. apply lookup_insert_eq. Qed.

(** Once an id is absent, the calls that name it behave as follows. *)
Lemma gone_session_calls game_id st :
  active_games st !! game_id = None -> lock_held st = false ->
  forall now v,
    fails_with_session_error (process_guess now game_id v st).1 /\
    fails_with_session_error (set_target_number game_id v st).1 /\
    end_game game_id st = (Returned tt, st).
Proof.
  intros Hg Hk now v. split; [|split].
  - destruct (process_guess_absent now game_id v st Hg) as (e & -> & He).
    by exists e.
  - rewrite set_target_absent; [|done]. by eexists.
  - by apply end_game_absent.
Qed.

Lemma spec_outcome_kind g t n :
  target g = Some t -> kind (spec_outcome g t n) = spec_kind g n.
Proof.
  intros Ht. unfold spec_outcome, spec_kind. rewrite Ht.
  destruct (Z.eqb_spec n t) as [->|Hne].
  - by rewrite decide_True.
  - rewrite decide_False by congruence. by destruct (_ <=? _).
Qed.

(** C1 (amended).  A valid guess on a live session whose target is set,
    made while the lock is free and, when it wins a single-mode session,
    with a score table that can be read and written, returns exactly the
    outcome the specification prescribes: win, else lose, else continue.
    After win or lose the id is gone: every later [process_guess] or
    [set_target_number] naming it fails with a session error, and
    [end_game] on it returns normally without effect. *)
Theorem process_guess_outcome now game_id value st g n t :
  live_session now game_id g st -> valid_guess g value n ->
  target g = Some t -> lock_held st = false ->
  (mode g = "single"%string -> n = t ->
     exists d table, difficulty g = Some d /\
       single_scores_file st = Json table /\ storage_writable st = true) ->
  exists st',
    process_guess now game_id value st = (Returned (spec_outcome g t n), st') /\
    kind (spec_outcome g t n) = spec_kind g n /\
    (kind (spec_outcome g t n) = KContinue ->
       st' = with_game game_id (with_attempts (attempts g + 1) g) st) /\
    (kind (spec_outcome g t n) <> KContinue ->
       active_games st' !! game_id = None /\
       forall now' v,
         fails_with_session_error (process_guess now' game_id v st').1 /\
         fails_with_session_error (set_target_number game_id v st').1 /\
         end_game game_id st' = (Returned tt, st')).
Proof.
  intros Hl Hv Ht Hk Hstore.
  pose proof (spec_outcome_kind g t n Ht) as Hkind.
  unfold spec_outcome in *. destruct (Z.eqb_spec n t) as [->|Hne].
  - (* win *)
    destruct (decide (mode g = "single"%string)) as [Hm|Hm].
    + destruct (Hstore Hm eq_refl) as (d & table & Hd & Hf & Hw).
      eexists. split; [by eapply guess_win_single_saved|].
      split; [done|]. split; [done|]. intros _.
      assert (Hgone : active_games (set_scores_file "single"
                (Json (put "single" d (attempts g + 1) table))
                (without game_id st)) !! game_id = None)
        by apply lookup_without.
      split; [done|]. apply gone_session_calls; [done|].
      by destruct st.
    + eexists. split; [by apply (guess_win_not_single _ _ _ _ _ t)|].
      split; [done|]. split; [done|]. intros _.
      split; [apply lookup_without|].
      apply gone_session_calls; [apply lookup_without | by destruct st].
  - destruct (Z.leb_spec (max_attempts g) (attempts g + 1)) as [Hmax|Hmax].
    + (* lose *)
      eexists. rewrite <- Ht.
      split; [apply (guess_miss_lose _ _ _ _ _ n); [done..|congruence|done]|].
      rewrite Ht. split; [done|]. split; [done|]. intros _.
      split; [apply lookup_without|].
      apply gone_session_calls; [apply lookup_without | by destruct st].
    + (* continue *)
      eexists. split.
      { rewrite (guess_miss_continue now game_id value st g n t); [|done..].
        by rewrite Z.gtb_ltb. }
      split; [done|]. split; [done|]. by intros [].
Qed.

(** The hypotheses of C1 (amended) hold for the winning guess 7 on the easy
    session: it returns the win and the session is gone. *)
Lemma process_guess_outcome_witness :
  live_session (seconds 10) "g1" easy_session (one_single healthy) /\
  valid_guess easy_session (PyInt 7) 7 /\
  exists st',
    process_guess (seconds 10) "g1" (PyInt 7) (one_single healthy) =
      (Returned (Win 1 (Some 7)), st') /\
    active_games st' !! "g1"%string = None.
Proof.
  assert (Hl : live_session (seconds 10) "g1" easy_session (one_single healthy))
    by (repeat split; by vm_compute).
  assert (Hv : valid_guess easy_session (PyInt 7) 7)
    by (repeat split; by vm_compute).
  split; [exact Hl|]. split; [exact Hv|].
  destruct (process_guess_outcome (seconds 10) "g1" (PyInt 7)
              (one_single healthy) easy_session 7 7 Hl Hv eq_refl eq_refl)
    as (st' & Hp & _ & _ & Hgone).
  - intros _ _. exists "easy"%string, ∅. by vm_compute.
  - exists st'. split; [exact Hp|]. by apply Hgone.
Defined.

(** C1 as stated fails twice over.  With a corrupt single scores file the
    winning guess returns no outcome at all; and with a healthy one,
    [end_game] on the id of the session just won returns normally instead
    of failing with a session error. *)
Lemma no_outcome_or_no_error_after_win :
  ~ exactly_one_outcome_then_gone (seconds 10) "g1" (PyInt 7)
      (one_single corrupt) /\
  ~ exactly_one_outcome_then_gone (seconds 10) "g1" (PyInt 7)
      (one_single healthy).
Proof.
  split; intros H.
  { destruct (H easy_session 7) as (r & st' & Hp & _).
    - repeat split; by vm_compute.
    - repeat split; by vm_compute.
    - assert (Hrun : (process_guess (seconds 10) "g1" (PyInt 7)
                        (one_single corrupt)).1 =
                Raised (FailedToProcessGuess (FailedToSaveScore StorageError)))
        by (vm_compute; reflexivity).
      rewrite Hp in Hrun. discriminate Hrun. }
  destruct (H easy_session 7) as (r & st' & Hp & _ & Hgone).
  - repeat split; by vm_compute.
  - repeat split; by vm_compute.
  - assert (Hrun : exists st'', process_guess (seconds 10) "g1" (PyInt 7) (one_single healthy) =
              (Returned (Win 1 (Some 7)), st'') /\ end_game "g1" st'' = (Returned tt, st'')).
    { eexists. split; vm_compute; reflexivity. }
    destruct Hrun as (st'' & Hp' & He). rewrite Hp' in Hp. injection Hp as <- <-.
    destruct Hgone as [_ Hcalls]; [done|].
    specialize (Hcalls call_end_session). simpl in Hcalls.
    rewrite He in Hcalls. by destruct Hcalls as (e & ? & _).
Qed.

Lemma process_guess_expired_blocked now game_id value st g :
  game_id <> ""%string -> active_games st !! game_id = Some g ->
  SESSION_TIMEOUT < timedelta_seconds now (start_time g) ->
  lock_held st = true ->
  process_guess now game_id value st = (Blocked, st).
Proof.
  intros Hid Hg Ht Hk. unfold process_guess, _validate_game_session.
  apply String.eqb_neq in Hid. rewrite Hid. unfold try_except, bind, get_state.
  rewrite Hg. apply Z.gtb_lt in Ht. rewrite Ht.
  by rewrite end_game_blocked.
Qed.

Lemma process_guess_no_id now value st :
  process_guess now "" value st =
    (Raised (FailedToProcessGuess NoActiveGameSession), st).
Proof. done. Qed.

(** C4 (amended).  When score persistence fails during a winning
    single-mode guess, the failure is not absorbed: [_save_score] re-raises
    it and [process_guess] fails with that error instead of returning the
    win.  A guess that misses the target, and a win of a session that is not
    single-mode, never touch the score store and return their outcome. *)
Theorem win_lost_to_persistence_failure now game_id value st g n :
  live_session now game_id g st -> valid_guess g value n ->
  lock_held st = false -> persistence_fails st ->
  (forall d, mode g = "single"%string -> target g = Some n ->
     difficulty g = Some d ->
     (process_guess now game_id value st).1 =
       Raised (FailedToProcessGuess (FailedToSaveScore StorageError))) /\
  (forall t, target g = Some t -> n <> t \/ mode g <> "single"%string ->
     (process_guess now game_id value st).1 = Returned (spec_outcome g t n)).
Proof.
  intros Hl Hv Hk Hf. split.
  - intros d Hm Ht Hd.
    by rewrite (guess_win_single_storage_failure now game_id value st g n d).
  - intros t Ht Hcase. unfold spec_outcome.
    destruct (Z.eqb_spec n t) as [->|Hne].
    + destruct Hcase as [|Hm]; [done|].
      by rewrite (guess_win_not_single now game_id value st g t).
    + destruct (Z.leb_spec (max_attempts g) (attempts g + 1)) as [Hmax|Hmax].
      * rewrite (guess_miss_lose now game_id value st g n);
          [by rewrite Ht|done..|congruence|done].
      * rewrite (guess_miss_continue now game_id value st g n t); [|done..].
        by rewrite Z.gtb_ltb.
Qed.

(** C4 (amended) on the easy session with a corrupt single scores file: the
    winning guess 7 fails, the miss 9 continues. *)
Lemma win_lost_to_persistence_failure_witness :
  (process_guess (seconds 10) "g1" (PyInt 7) (one_single corrupt)).1 =
    Raised (FailedToProcessGuess (FailedToSaveScore StorageError)) /\
  (process_guess (seconds 10) "g1" (PyInt 9) (one_single corrupt)).1 =
    Returned (Continue "lower" 1 5).
Proof.
  assert (Hl : live_session (seconds 10) "g1" easy_session (one_single corrupt))
    by (repeat split; by vm_compute).
  assert (Hk : lock_held (one_single corrupt) = false) by reflexivity.
  assert (Hf : persistence_fails (one_single corrupt)) by (by left).
  split.
  - assert (Hv : valid_guess easy_session (PyInt 7) 7)
      by (repeat split; by vm_compute).
    exact (proj1 (win_lost_to_persistence_failure _ _ _ _ _ _ Hl Hv Hk Hf)
             "easy"%string eq_refl eq_refl eq_refl).
  - assert (Hv : valid_guess easy_session (PyInt 9) 9)
      by (repeat split; by vm_compute).
    apply (proj2 (win_lost_to_persistence_failure _ _ _ _ _ _ Hl Hv Hk Hf)
             7 eq_refl).
    left. lia.
Defined.

(** C4 as stated fails: with a corrupt single scores file the winning
    guess does not return the win outcome. *)
Lemma win_not_returned_when_store_corrupt :
  ~ win_survives_persistence_failure (seconds 10) "g1" (PyInt 7)
      (one_single corrupt).
Proof.
  intros H. destruct (H easy_session 7) as (st' & Hp).
  - repeat split; by vm_compute.
  - repeat split; by vm_compute.
  - reflexivity.
  - reflexivity.
  - by left.
  - assert (Hrun : (process_guess (seconds 10) "g1" (PyInt 7) (one_single corrupt)).1 =
              Raised (FailedToProcessGuess (FailedToSaveScore StorageError)))
      by (vm_compute; reflexivity).
    rewrite Hp in Hrun. discriminate Hrun.
Qed.

(** C5.  A guess that is not an integer, or lies outside the inclusive
    range of the session, never increments the attempts counter; on a live
    session [process_guess] fails with a validation error and leaves the
    whole manager as it was. *)
Theorem invalid_guess_rejected now game_id value st g :
  active_games st !! game_id = Some g -> invalid_guess g value ->
  (forall g', active_games (process_guess now game_id value st).2 !! game_id
                = Some g' -> attempts g' = attempts g) /\
  (live_session now game_id g st ->
     exists e, process_guess now game_id value st = (Raised e, st) /\
               is_validation_error e = true).
Proof.
  intros Hg Hi.
  assert (Hlive : live_session now game_id g st ->
     exists e, process_guess now game_id value st = (Raised e, st) /\
               is_validation_error e = true).
  { intros Hl. destruct (process_guess_invalid _ _ _ _ _ Hl Hi) as (e & Hp & He).
    eexists. split; [exact Hp|]. by destruct He as [->| ->]. }
  split; [|done]. intros g'.
  destruct (decide (game_id = ""%string)) as [->|Hid].
  { rewrite process_guess_no_id. simpl. congruence. }
  destruct (Z.le_gt_cases (timedelta_seconds now (start_time g)) SESSION_TIMEOUT)
    as [Hfresh|Hstale].
  - destruct Hlive as (e & -> & _); [done|]. simpl. congruence.
  - destruct (lock_held st) eqn:Hk.
    + rewrite (process_guess_expired_blocked _ _ _ _ g); [|done..]. simpl. congruence.
    + rewrite (process_guess_expired _ _ _ _ g); [|done..]. cbn [snd].
      by rewrite lookup_without.
Qed.

(** C5 on the easy session: 51 is outside 1..50. *)
Lemma invalid_guess_rejected_witness :
  (forall g', active_games (process_guess (seconds 10) "g1" (PyInt 51)
                              (one_single healthy)).2 !! "g1"%string = Some g' ->
              attempts g' = 0) /\
  exists e, process_guess (seconds 10) "g1" (PyInt 51) (one_single healthy)
              = (Raised e, one_single healthy) /\
            is_validation_error e = true.
Proof.
  assert (Hg : active_games (one_single healthy) !! "g1"%string = Some easy_session)
    by (vm_compute; reflexivity).
  assert (Hi : invalid_guess easy_session (PyInt 51)).
  { right. exists 51. split; [reflexivity|]. right. by vm_compute. }
  destruct (invalid_guess_rejected (seconds 10) "g1" (PyInt 51)
              (one_single healthy) easy_session Hg Hi) as [Hsame Hrej].
  split; [exact Hsame|]. apply Hrej. repeat split; by vm_compute.
Defined.

Lemma stored_single key st table :
  single_scores_file st = Json table -> stored_score "single" key st = table !! key.
Proof.
  intros Hf. unfold stored_score, get_scores, read_scores, scores_file.
  unfold_monad. simpl. by rewrite Hf.
Qed.

Lemma stored_multi key st table :
  multi_scores_file st = Json table -> stored_score "multi" key st = table !! key.
Proof.
  intros Hf. unfold stored_score, get_scores, read_scores, scores_file.
  unfold_monad. simpl. by rewrite Hf.
Qed.

Lemma lookup_put_single key v (table : gmap string Z) :
  put "single" key v table !! key =
    Some (match table !! key with
          | Some old => if v <? old then v else old
          | None => v
          end).
Proof.
  unfold put. simpl. destruct (table !! key) as [old|] eqn:E.
  - destruct (v <? old); [apply lookup_insert_eq | done].
  - apply lookup_insert_eq.
Qed.

Lemma lookup_put_multi key v (table : gmap string Z) :
  put "multi" key v table !! key = Some v.
Proof. unfold put. simpl. apply lookup_insert_eq. Qed.

Lemma lookup_put_other md key key' v (table : gmap string Z) :
  key <> key' -> put md key v table !! key' = table !! key'.
Proof.
  intros Hne. unfold put. destruct (String.eqb md "single").
  - destruct (table !! key) as [old|]; [destruct (v <? old)|];
      by rewrite ?lookup_insert_ne.
  - by rewrite lookup_insert_ne.
Qed.

Lemma after_put_single key x st table :
  lock_held st = false -> storage_writable st = true ->
  single_scores_file st = Json table ->
  let st' := (_save_score "single" key x st).2 in
  single_scores_file st' = Json (put "single" key x table) /\
  lock_held st' = false /\ storage_writable st' = true.
Proof.
  intros Hk Hw Hf. simpl. rewrite (save_score_ok "single" key x st table) by done.
  by destruct st.
Qed.

Lemma after_put_multi key x st table :
  lock_held st = false -> storage_writable st = true ->
  multi_scores_file st = Json table ->
  let st' := (_save_score "multi" key x st).2 in
  multi_scores_file st' = Json (put "multi" key x table) /\
  lock_held st' = false /\ storage_writable st' = true.
Proof.
  intros Hk Hw Hf. simpl. rewrite (save_score_ok "multi" key x st table) by done.
  by destruct st.
Qed.

(** C6.  [_save_score] is asymmetric by mode.  In single mode the entry
    becomes the new value only when the key is absent or the new value is
    strictly smaller, so a put of 7 after a put of 5 changes nothing and 5
    stays stored; in multi mode the entry always becomes the new value. *)
Theorem score_put_asymmetric st key v single_table multi_table :
  lock_held st = false -> storage_writable st = true ->
  single_scores_file st = Json single_table ->
  multi_scores_file st = Json multi_table ->
  let put_single x s := (_save_score "single" key x s).2 in
  let put_multi x s := (_save_score "multi" key x s).2 in
  (_save_score "single" key v st).1 = Returned tt /\
  stored_score "single" key (put_single v st) =
    Some (match stored_score "single" key st with
          | Some old => if v <? old then v else old
          | None => v
          end) /\
  stored_score "single" key (put_single 7 (put_single 5 st)) =
    stored_score "single" key (put_single 5 st) /\
  (stored_score "single" key st = None ->
   stored_score "single" key (put_single 7 (put_single 5 st)) = Some 5) /\
  (_save_score "multi" key v st).1 = Returned tt /\
  stored_score "multi" key (put_multi v st) = Some v /\
  stored_score "multi" key (put_multi 7 (put_multi 5 st)) = Some 7.
Proof.
  intros Hk Hw Hs Hm put_single put_multi.
  destruct (after_put_single key v st _ Hk Hw Hs) as (Hsv & _ & _).
  destruct (after_put_single key 5 st _ Hk Hw Hs) as (Hs5 & Hk5 & Hw5).
  destruct (after_put_single key 7 _ _ Hk5 Hw5 Hs5) as (Hs57 & _ & _).
  destruct (after_put_multi key v st _ Hk Hw Hm) as (Hmv & _ & _).
  destruct (after_put_multi key 5 st _ Hk Hw Hm) as (Hm5 & Hk5' & Hw5').
  destruct (after_put_multi key 7 _ _ Hk5' Hw5' Hm5) as (Hm57 & _ & _).
  unfold put_single, put_multi.
  rewrite (stored_single key st _ Hs), (stored_single key _ _ Hsv),
    (stored_single key _ _ Hs5), (stored_single key _ _ Hs57),
    (stored_multi key _ _ Hmv), (stored_multi key _ _ Hm57).
  rewrite (save_score_ok "single" key v st single_table),
          (save_score_ok "multi" key v st multi_table) by done.
  rewrite !lookup_put_single, !lookup_put_multi.
  repeat split; try done.
  - destruct (single_table !! key) as [old|]; [|done].
    destruct (Z.ltb_spec 5 old); [done|].
    destruct (Z.ltb_spec 7 old); [lia|done].
  - by intros ->.
Qed.

(** C6 on empty tables: 5 then 7 leaves 5 in single mode, 7 in multi. *)
Lemma score_put_asymmetric_witness :
  stored_score "single" "easy"
    ((_save_score "single" "easy" 7 ((_save_score "single" "easy" 5 healthy).2)).2)
    = Some 5 /\
  stored_score "multi" "ann"
    ((_save_score "multi" "ann" 7 ((_save_score "multi" "ann" 5 healthy).2)).2)
    = Some 7.
Proof.
  split.
  - apply (score_put_asymmetric healthy "easy" 0 ∅ ∅); reflexivity.
  - apply (score_put_asymmetric healthy "ann" 0 ∅ ∅); reflexivity.
Defined.

Lemma number_range_ok number n lo hi st :
  as_int number = Some n -> lo <= n <= hi ->
  _validate_number_range number lo hi st = (Returned tt, st).
Proof.
  intros Hn Hr. unfold _validate_number_range. rewrite Hn.
  by rewrite (in_range_test _ _ _ Hr).
Qed.

Lemma number_range_bad number lo hi st :
  (as_int number = None \/
   exists n, as_int number = Some n /\ (n < lo \/ hi < n)) ->
  _validate_number_range number lo hi st =
    (Raised (NumberMustBeBetween lo hi), st).
Proof.
  intros [Hn|(n & Hn & Hr)]; unfold _validate_number_range; rewrite Hn; [done|].
  by rewrite (out_of_range_test _ _ _ Hr).
Qed.

Ltac enter_set_target Hg Hs :=
  unfold set_target_number, _validate_game_id, bind, get_state;
  rewrite Hg; unfold ret at 1; cbv beta iota; rewrite Hg, Hs;
  match goal with
  | |- context [negb ?b] =>
      let v := eval vm_compute in (negb b) in change (negb b) with v
  end; cbv beta iota.

(** C8.  On a session whose status is [waiting_for_number] (only
    multiplayer sessions carry a status), [set_target_number] with a number
    inside the range stores the target, sets the status to [in_progress] and
    the attempts to 0, after which any further [set_target_number] fails;
    with any other number it fails and leaves the manager unchanged. *)
Theorem set_target_waiting game_id number st g :
  active_games st !! game_id = Some g ->
  status g = Some "waiting_for_number"%string ->
  (forall n, as_int number = Some n -> (range g).1 <= n <= (range g).2 ->
     set_target_number game_id number st =
       (Returned tt, with_game game_id (target_set n g) st) /\
     target (target_set n g) = Some n /\
     status (target_set n g) = Some "in_progress"%string /\
     attempts (target_set n g) = 0 /\
     forall number',
       set_target_number game_id number' (with_game game_id (target_set n g) st)
         = (Raised CannotSetTarget, with_game game_id (target_set n g) st)) /\
  (invalid_guess g number ->
     set_target_number game_id number st =
       (Raised (NumberMustBeBetween (range g).1 (range g).2), st)).
Proof.
  intros Hg Hs. split.
  - intros n Hn Hr. repeat split.
    + enter_set_target Hg Hs.
      rewrite (number_range_ok number n) by done. by rewrite Hn.
    + intros number'.
      pose proof (lookup_with_game game_id (target_set n g) st) as Hg'.
      assert (Hs' : status (target_set n g) = Some "in_progress"%string)
        by reflexivity.
      by enter_set_target Hg' Hs'.
  - intros Hbad. enter_set_target Hg Hs.
    by rewrite number_range_bad.
Qed.

(** C8 on the waiting multiplayer session: 42 is accepted, 101 is not. *)
Lemma set_target_waiting_witness :
  set_target_number "g2" (PyInt 42) (one_multi healthy) =
    (Returned tt, with_game "g2" (target_set 42 waiting_session) (one_multi healthy)) /\
  set_target_number "g2" (PyInt 101) (one_multi healthy) =
    (Raised (NumberMustBeBetween 1 100), one_multi healthy).
Proof.
  assert (Hg : active_games (one_multi healthy) !! "g2"%string = Some waiting_session)
    by (vm_compute; reflexivity).
  destruct (set_target_waiting "g2" (PyInt 42) (one_multi healthy)
              waiting_session Hg eq_refl) as [Hok _].
  destruct (set_target_waiting "g2" (PyInt 101) (one_multi healthy)
              waiting_session Hg eq_refl) as [_ Hbad].
  split.
  - apply (Hok 42 eq_refl). by vm_compute.
  - apply Hbad. right. exists 101. split; [reflexivity|]. right. by vm_compute.
Defined.

(** ** The claims the code breaks *)

(** C2 (code defect).  A session created 24 hours and 10 seconds ago is far
    older than the 30-minute timeout, but the seconds field of that
    [timedelta] is 10: [process_guess] treats it as live and processes the
    guess. *)
Theorem stale_session_still_guessed :
  let now := seconds (24 * 3600 + 10) in
  active_games (one_single healthy) !! "g1"%string = Some easy_session /\
  seconds SESSION_TIMEOUT < elapsed_us now (start_time easy_session) /\
  timedelta_seconds now (start_time easy_session) = 10 /\
  process_guess now "g1" (PyInt 9) (one_single healthy) =
    (Returned (Continue "lower" 1 5),
     with_game "g1" (with_attempts 1 easy_session) (one_single healthy)).
Proof. repeat split; vm_compute; reflexivity. Qed.

(** C3 (code defect).  A guess on a multiplayer session that still waits
    for its number increments the attempts counter before the comparison
    with the missing target raises; the eighth such guess does not fail at
    all, it returns the lose outcome and removes the session. *)
Theorem waiting_session_guess_mutates :
  let st := one_multi healthy in
  let guessed k := run_ops (replicate k (guess (seconds 10) "g2" (PyInt 50))) st in
  active_games st !! "g2"%string = Some waiting_session /\
  process_guess (seconds 10) "g2" (PyInt 50) st =
    (Raised (FailedToProcessGuess TypeError),
     with_game "g2" (with_attempts 1 waiting_session) st) /\
  active_games (guessed 7%nat) !! "g2"%string = Some (with_attempts 7 waiting_session) /\
  process_guess (seconds 10) "g2" (PyInt 50) (guessed 7%nat) =
    (Returned (Lose None), without "g2" st).
Proof. repeat split; vm_compute; reflexivity. Qed.

(** C7 (code defect).  With a session created 1801 seconds ago the sweep
    takes the lock and calls [end_game], which waits for the same lock: the
    sweep hangs, the session stays, no timer is started.  A session created
    24 hours and 10 seconds ago is not even selected. *)
Theorem sweep_deadlocks_on_expired_session :
  let st := one_single healthy in
  active_games st !! "g1"%string = Some easy_session /\
  _cleanup_expired_sessions (seconds 1801) st = (Blocked, set_lock true st) /\
  _cleanup_expired_sessions (seconds (24 * 3600 + 10)) st =
    (Returned tt, start_timer st).
Proof. repeat split; vm_compute; reflexivity. Qed.

(** C9 (code defect).  With a corrupt single scores file every winning
    guess raises after the attempts counter was incremented and before the
    session is removed: after seven of them the registered session has
    7 attempts against a ceiling of 6. *)
Theorem attempts_exceed_ceiling :
  let winning := guess (seconds 10) "g1" (PyInt 7) in
  let st := run_ops (create_single "g1" 6 0 "easy" None :: replicate 7 winning)
                    corrupt in
  process_guess (seconds 10) "g1" (PyInt 7) (one_single corrupt) =
    (Raised (FailedToProcessGuess (FailedToSaveScore StorageError)),
     with_game "g1" (with_attempts 1 easy_session) (one_single corrupt)) /\
  active_games st !! "g1"%string = Some (with_attempts 7 easy_session) /\
  ~ attempts_bounded (with_attempts 7 easy_session).
Proof. repeat split; try (vm_compute; reflexivity). by vm_compute. Qed.

(** C10 (code defect).  While another caller holds the lock,
    [start_multiplayer] and [end_game] wait for it, but [set_target_number]
    and [process_guess] run to completion and change the session table:
    they never acquire it. *)
Theorem guess_and_set_target_ignore_lock :
  let st := set_lock true (one_multi healthy) in
  let st' := with_game "g2" (target_set 42 waiting_session) st in
  lock_held st = true /\
  start_multiplayer "g3" 0 "cy" "di" st = (Blocked, st) /\
  end_game "g2" st = (Blocked, st) /\
  set_target_number "g2" (PyInt 42) st = (Returned tt, st') /\
  process_guess (seconds 10) "g2" (PyInt 50) st' =
    (Returned (Continue "lower" 1 7),
     with_game "g2" (with_attempts 1 (target_set 42 waiting_session)) st') /\
  process_guess (seconds 20) "g2" (PyInt 42) st' =
    (Returned (Win 1 (Some 42)), without "g2" st').
Proof. repeat split; vm_compute; reflexivity. Qed.

(** * Further properties of the manager *)

Lemma guess_win_no_difficulty now game_id guess st g n :
  live_session now game_id g st -> valid_guess g guess n ->
  target g = Some n -> mode g = "single"%string -> difficulty g = None ->
  process_guess now game_id guess st =
    (Raised (FailedToProcessGuess (KeyError "difficulty")),
     with_game game_id (with_attempts (attempts g + 1) g) st).
Proof.
  intros Hl Hv Ht Hm Hd. enter_win Hl Hv Ht Hm Hd. by unfold_monad.
Qed.

Lemma valid_or_invalid g value :
  invalid_guess g value \/ exists n, valid_guess g value n.
Proof.
  unfold invalid_guess, valid_guess.
  destruct (as_int value) as [n|]; [|left; by left].
  destruct (Z_lt_dec n (range g).1); [left; right; eauto|].
  destruct (Z_lt_dec (range g).2 n); [left; right; eauto|].
  right. exists n. split; [done|lia].
Qed.

Lemma process_guess_split now game_id value st :
  process_guess now game_id value st =
    ((process_guess now game_id value st).1,
     (process_guess now game_id value st).2).
Proof. by destruct (process_guess now game_id value st). Qed.

Theorem process_guess_cases now game_id value st :
  guess_case now game_id value st
    (process_guess now game_id value st).1
    (process_guess now game_id value st).2.
Proof.
  destruct (decide (game_id = ""%string)) as [->|Hid].
  { rewrite process_guess_no_id. by constructor. }
  destruct (active_games st !! game_id) as [g|] eqn:Hg; cycle 1.
  { destruct (process_guess_absent now game_id value st Hg) as (e & Hp & He).
    unfold process_guess, _validate_game_session in *.
    apply String.eqb_neq in Hid. rewrite Hid in *. unfold_monad.
    rewrite Hg in *. by constructor. }
  destruct (Z.le_gt_cases (timedelta_seconds now (start_time g)) SESSION_TIMEOUT)
    as [Hfresh|Hstale]; cycle 1.
  { destruct (lock_held st) eqn:Hk.
    - rewrite (process_guess_expired_blocked _ _ _ _ g) by done.
      by eapply case_expired_blocked.
    - rewrite (process_guess_expired _ _ _ _ g) by done.
      by eapply case_expired. }
  assert (Hl : live_session now game_id g st) by done.
  destruct (valid_or_invalid g value) as [Hi|[n Hv]].
  { destruct (process_guess_invalid _ _ _ _ _ Hl Hi) as (e & -> & He).
    by eapply case_invalid. }
  destruct (decide (target g = Some n)) as [Ht|Ht]; cycle 1.
  { destruct (Z.le_gt_cases (max_attempts g) (attempts g + 1)) as [Hmax|Hmax].
    - rewrite (guess_miss_lose _ _ _ _ _ n) by done. by eapply case_lose.
    - destruct (target g) as [t|] eqn:Ht'.
      + rewrite (guess_miss_continue _ _ _ _ _ n t) by (done || congruence).
        eapply case_continue; (done || congruence).
      + rewrite (guess_unset_error _ _ _ _ _ n) by done. by eapply case_unset. }
  destruct (decide (mode g = "single"%string)) as [Hm|Hm]; cycle 1.
  { rewrite (guess_win_not_single _ _ _ _ _ n) by done.
    by eapply case_win_unsaved. }
  destruct (difficulty g) as [d|] eqn:Hd; cycle 1.
  { rewrite (guess_win_no_difficulty _ _ _ _ _ n) by done.
    by eapply case_win_no_difficulty. }
  destruct (lock_held st) eqn:Hk.
  { rewrite (guess_win_single_blocked _ _ _ _ _ n d) by done.
    by eapply case_win_blocked. }
  destruct (single_scores_file st) as [|table] eqn:Hf.
  { rewrite (guess_win_single_storage_failure _ _ _ _ _ n d)
      by (done || by left).
    eapply case_win_store_fails; try done. by left. }
  destruct (storage_writable st) eqn:Hw.
  - rewrite (guess_win_single_saved _ _ _ _ _ n d table) by done.
    by eapply case_win_saved.
  - rewrite (guess_win_single_storage_failure _ _ _ _ _ n d)
      by (done || by right).
    eapply case_win_store_fails; try done. by right.
Qed.

(** Field-wise facts about the state updates. *)
Lemma lookup_without_ne game_id i st :
  i <> game_id -> active_games (without game_id st) !! i = active_games st !! i.
Proof. intros. unfold without. destruct st; simpl. by rewrite lookup_delete_ne. Qed.

Lemma lookup_with_game_ne game_id i g st :
  i <> game_id ->
  active_games (with_game game_id g st) !! i = active_games st !! i.
Proof. intros. unfold with_game. destruct st; simpl. by rewrite lookup_insert_ne. Qed.

Lemma active_games_set_scores_file md f st :
  active_games (set_scores_file md f st) = active_games st.
Proof. unfold set_scores_file. by destruct (String.eqb md "single"). Qed.

(** X2.  [process_guess] touches one session only: every other id keeps its
    session, an absent id stays absent, and the multiplayer scores file,
    the storage and the timers are never changed. *)
Theorem process_guess_frame now game_id value st :
  let st' := (process_guess now game_id value st).2 in
  (forall i, i <> game_id -> active_games st' !! i = active_games st !! i) /\
  (active_games st !! game_id = None -> active_games st' !! game_id = None) /\
  multi_scores_file st' = multi_scores_file st /\
  storage_writable st' = storage_writable st /\
  cleanup_timers st' = cleanup_timers st.
Proof.
  simpl. destruct (process_guess_cases now game_id value st);
    rewrite ?active_games_set_scores_file;
    (split; [intros i Hi;
             by rewrite ?lookup_without_ne, ?lookup_with_game_ne by done|]);
    (split; [intros Hnone;
             try (by rewrite ?lookup_without);
             try match goal with
                 | H : live_session _ _ _ _ |- _ =>
                     destruct H as (_ & ? & _); congruence
                 end; try congruence|]);
    by destruct st.
Qed.

(** X3.  [process_guess] leaves the lock as it found it, and it can block
    only when the lock is held at entry. *)
Theorem process_guess_lock now game_id value st :
  lock_held (process_guess now game_id value st).2 = lock_held st /\
  ((process_guess now game_id value st).1 = Blocked -> lock_held st = true).
Proof.
  destruct (process_guess_cases now game_id value st);
    (split; [by destruct st|]); done.
Qed.

(** X1.  Whatever the state and the input, an outcome that [process_guess]
    returns tells the truth: the session was live and the guess valid; a win
    reveals the target, which is the guess, and removes the session; a lose
    reveals the target, which the guess missed, comes only at the ceiling
    and removes the session; a continue leaves the session registered with
    the incremented counter, attempts and remaining add up to the ceiling,
    at least one attempt remains, and the hint points from the guess to the
    target. *)
Theorem returned_outcome_faithful now game_id value st r :
  (process_guess now game_id value st).1 = Returned r ->
  exists g n,
    live_session now game_id g st /\ valid_guess g value n /\
    match r with
    | Win a revealed =>
        target g = Some n /\ revealed = Some n /\ a = attempts g + 1 /\
        active_games (process_guess now game_id value st).2 !! game_id = None
    | Lose revealed =>
        target g <> Some n /\ revealed = target g /\
        max_attempts g <= attempts g + 1 /\
        active_games (process_guess now game_id value st).2 !! game_id = None
    | Continue hint a remaining =>
        (exists t, target g = Some t /\ n <> t /\
                   (hint = "lower"%string <-> t < n) /\
                   (hint = "higher"%string <-> n < t)) /\
        a = attempts g + 1 /\ a + remaining = max_attempts g /\
        0 < remaining /\
        active_games (process_guess now game_id value st).2 !! game_id
          = Some (with_attempts a g)
    end.
Proof.
  intros Hr.
  destruct (process_guess_cases now game_id value st); try discriminate Hr;
    injection Hr as <-; exists g, n; (split; [done|]); (split; [done|]);
    rewrite ?active_games_set_scores_file, ?lookup_without, ?lookup_with_game.
  - split; [|repeat split; lia]. exists t. split; [done|]. split; [done|].
    destruct (Z.gtb_spec n t); split; split; intros; (done || lia).
  - done.
  - done.
  - done.
Qed.

(** X1 on the miss 9 against the easy session, which returns continue. *)
Lemma returned_outcome_faithful_witness :
  exists g n,
    live_session (seconds 10) "g1" g (one_single healthy) /\
    valid_guess g (PyInt 9) n /\
    (exists t, target g = Some t /\ n <> t /\
               ("lower"%string = "lower"%string <-> t < n) /\
               ("lower"%string = "higher"%string <-> n < t)) /\
    1 = attempts g + 1 /\ 1 + 5 = max_attempts g /\ 0 < 5 /\
    active_games (process_guess (seconds 10) "g1" (PyInt 9)
                    (one_single healthy)).2 !! "g1"%string
      = Some (with_attempts 1 g).
Proof.
  apply (returned_outcome_faithful (seconds 10) "g1" (PyInt 9)
           (one_single healthy) (Continue "lower" 1 5)).
  vm_compute. reflexivity.
Defined.

(** The seconds field repeats every day. *)
Lemma timedelta_seconds_range now start :
  0 <= timedelta_seconds now start < 86400.
Proof. unfold timedelta_seconds. apply Z.mod_pos_bound. lia. Qed.

Lemma timedelta_seconds_periodic now start k :
  timedelta_seconds (now + seconds (86400 * k)) start =
  timedelta_seconds now start.
Proof.
  unfold timedelta_seconds, seconds.
  replace (now + 86400 * k * 1000000 - start)
    with (now - start + (86400 * k) * 1000000) by lia.
  rewrite Z.div_add by lia.
  replace (86400 * k) with (k * 86400) by lia.
  by rewrite Z.mod_add by lia.
Qed.

Lemma validate_periodic now game_id k st :
  _validate_game_session (now + seconds (86400 * k)) game_id st =
  _validate_game_session now game_id st.
Proof.
  unfold _validate_game_session. destruct (String.eqb game_id ""); [done|].
  unfold bind, get_state. destruct (active_games st !! game_id); [|done].
  by rewrite timedelta_seconds_periodic.
Qed.

Lemma expired_ids_periodic now k (m : gmap string game) :
  expired_ids (now + seconds (86400 * k)) m = expired_ids now m.
Proof.
  unfold expired_ids. f_equal. f_equal. apply map_filter_ext.
  intros i g _. simpl. by rewrite timedelta_seconds_periodic.
Qed.

(** X4.  The expiry test reads the seconds field of the elapsed time only: a
    call made any whole number of days later behaves exactly the same, for
    [process_guess] and for the sweep. *)
Theorem expiry_is_periodic now k game_id value st :
  process_guess (now + seconds (86400 * k)) game_id value st =
    process_guess now game_id value st /\
  _cleanup_expired_sessions (now + seconds (86400 * k)) st =
    _cleanup_expired_sessions now st.
Proof.
  split.
  - unfold process_guess, try_except, bind. by rewrite validate_periodic.
  - unfold _cleanup_expired_sessions, bind, with_lock, get_state.
    by rewrite expired_ids_periodic.
Qed.

Lemma expired_ids_elem now (m : gmap string game) game_id :
  game_id ∈ expired_ids now m <->
  exists g, m !! game_id = Some g /\
            SESSION_TIMEOUT < timedelta_seconds now (start_time g).
Proof.
  unfold expired_ids. rewrite list_elem_of_fmap. split.
  - intros ([i g] & -> & Hin). apply elem_of_map_to_list in Hin.
    apply map_lookup_filter_Some in Hin as [Hg Ht]. by exists g.
  - intros (g & Hg & Ht). exists (game_id, g). split; [done|].
    apply elem_of_map_to_list. by apply map_lookup_filter_Some.
Qed.

Lemma expired_ids_nil now st :
  expired_ids now (active_games st) = [] <-> ~ selected_by_sweep now st.
Proof.
  split.
  - intros He (i & g & Hg & Ht).
    assert (Hin : i ∈ expired_ids now (active_games st))
      by (apply expired_ids_elem; eauto).
    rewrite He in Hin. by apply elem_of_nil in Hin.
  - intros Hno. destruct (expired_ids now (active_games st)) as [|i l] eqn:He;
      [done|]. exfalso. apply Hno.
    assert (Hin : i ∈ expired_ids now (active_games st))
      by (rewrite He; apply list_elem_of_here).
    apply expired_ids_elem in Hin as (g & ? & ?). by exists i, g.
Qed.

Lemma cleanup_loop_blocked ids st :
  lock_held st = true -> ids <> [] -> cleanup_loop ids st = (Blocked, st).
Proof.
  intros Hk Hne. destruct ids as [|i rest]; [done|]. simpl.
  unfold bind, try_except. by rewrite end_game_blocked.
Qed.

Lemma sweep_blocked now st :
  lock_held st = false -> expired_ids now (active_games st) <> [] ->
  _cleanup_expired_sessions now st = (Blocked, set_lock true st).
Proof.
  intros Hk Hne. unfold _cleanup_expired_sessions. unfold bind at 1.
  unfold with_lock. rewrite Hk. unfold bind, get_state.
  change (active_games (set_lock true st)) with (active_games st).
  by rewrite cleanup_loop_blocked.
Qed.

Lemma sweep_idle now st :
  lock_held st = false -> expired_ids now (active_games st) = [] ->
  _cleanup_expired_sessions now st = (Returned tt, start_timer st).
Proof.
  intros Hk He. unfold _cleanup_expired_sessions. unfold bind at 1.
  unfold with_lock. rewrite Hk. unfold bind, get_state.
  change (active_games (set_lock true st)) with (active_games st).
  rewrite He. simpl. unfold modify. by rewrite set_lock_release.
Qed.

Lemma sweep_waits now st :
  lock_held st = true -> _cleanup_expired_sessions now st = (Blocked, st).
Proof.
  intros Hk. unfold _cleanup_expired_sessions, bind, with_lock.
  by rewrite Hk.
Qed.

Lemma sweep_registry now st :
  active_games (_cleanup_expired_sessions now st).2 = active_games st.
Proof.
  destruct (lock_held st) eqn:Hk; [by rewrite sweep_waits|].
  destruct (expired_ids now (active_games st)) as [|i l] eqn:He.
  - rewrite sweep_idle by done. by destruct st.
  - rewrite sweep_blocked by (done || by rewrite He). by destruct st.
Qed.

(** X9.  With the lock free, the sweep returns and schedules the next one
    exactly when no session is past the expiry test; otherwise it blocks,
    holding the lock. *)
Theorem sweep_outcome now st :
  lock_held st = false ->
  (~ selected_by_sweep now st ->
     _cleanup_expired_sessions now st = (Returned tt, start_timer st)) /\
  (selected_by_sweep now st ->
     _cleanup_expired_sessions now st = (Blocked, set_lock true st)).
Proof.
  intros Hk. split; intros Hsel.
  - apply sweep_idle; [done|]. by apply expired_ids_nil.
  - apply sweep_blocked; [done|]. by rewrite expired_ids_nil; intros [].
Qed.

(** X9 on the easy session: at 1800 seconds the sweep returns, at 1801 it
    blocks. *)
Lemma sweep_outcome_witness :
  _cleanup_expired_sessions (seconds 1800) (one_single healthy) =
    (Returned tt, start_timer (one_single healthy)) /\
  _cleanup_expired_sessions (seconds 1801) (one_single healthy) =
    (Blocked, set_lock true (one_single healthy)).
Proof.
  destruct (sweep_outcome (seconds 1800) (one_single healthy) eq_refl)
    as [Hidle _].
  destruct (sweep_outcome (seconds 1801) (one_single healthy) eq_refl)
    as [_ Hblock].
  split.
  - apply Hidle. apply expired_ids_nil. vm_compute. reflexivity.
  - apply Hblock. exists "g1"%string, easy_session.
    split; [vm_compute; reflexivity | by vm_compute].
Defined.

Lemma without_absent game_id st :
  active_games st !! game_id = None -> without game_id st = st.
Proof.
  intros H. unfold without. rewrite delete_id by done.
  apply set_active_games_id.
Qed.

Lemma end_game_free game_id st :
  lock_held st = false ->
  end_game game_id st = (Returned tt, without game_id st).
Proof.
  intros Hk. destruct (active_games st !! game_id) as [g|] eqn:Hg.
  - by apply (end_game_present _ g).
  - rewrite without_absent by done. by apply end_game_absent.
Qed.

(** X10.  With the lock free [end_game] returns, the id is absent afterwards,
    every other session is untouched, and ending again changes nothing. *)
Theorem end_game_idempotent game_id st :
  lock_held st = false ->
  end_game game_id st = (Returned tt, without game_id st) /\
  end_game game_id (without game_id st) = (Returned tt, without game_id st) /\
  active_games (without game_id st) !! game_id = None /\
  forall i, i <> game_id ->
    active_games (without game_id st) !! i = active_games st !! i.
Proof.
  intros Hk. repeat split.
  - by apply end_game_free.
  - apply end_game_absent; [by destruct st | apply lookup_without].
  - apply lookup_without.
  - intros i Hi. by apply lookup_without_ne.
Qed.

(** X10 on the easy session. *)
Lemma end_game_idempotent_witness :
  end_game "g1" (one_single healthy) = (Returned tt, healthy) /\
  end_game "g1" healthy = (Returned tt, healthy).
Proof.
  destruct (end_game_idempotent "g1" (one_single healthy) eq_refl)
    as (H1 & H2 & _).
  split; [exact H1 | exact H2].
Defined.

(** X11.  [get_scores] never changes the manager and never waits for the
    lock; a mode other than single and multi raises "Invalid score mode";
    for those two it returns the table, or the empty table when the file
    cannot be read. *)
Theorem get_scores_total md st :
  (get_scores md st).2 = st /\
  (md <> "single"%string -> md <> "multi"%string ->
     (get_scores md st).1 = Raised InvalidScoreMode) /\
  (md = "single"%string \/ md = "multi"%string ->
     (get_scores md st).1 =
       Returned (match scores_file md st with
                 | Json table => table
                 | Unreadable => ∅
                 end)).
Proof.
  unfold get_scores, read_scores. unfold_monad. repeat split.
  - destruct (negb _); [done|]. by destruct (scores_file md st).
  - intros H1 H2. apply String.eqb_neq in H1, H2. by rewrite H1, H2.
  - intros [-> | ->]; simpl; by destruct (scores_file _ st).
Qed.

(** X12.  [_save_score] is all or nothing: unless it returns, the manager is
    exactly as before (file untouched, lock released); when it returns, the
    file of that mode holds the updated table.  The sessions and the lock
    are never changed. *)
Theorem save_score_atomic md identifier score_data st :
  let r := (_save_score md identifier score_data st).1 in
  let st' := (_save_score md identifier score_data st).2 in
  (r <> Returned tt -> st' = st) /\
  (r = Returned tt ->
     exists table, scores_file md st = Json table /\
       st' = set_scores_file md (Json (put md identifier score_data table)) st) /\
  active_games st' = active_games st /\ lock_held st' = lock_held st.
Proof.
  simpl. destruct (lock_held st) eqn:Hk.
  { rewrite save_score_blocked by done. simpl. repeat split; done. }
  destruct (scores_file md st) as [|table] eqn:Hf.
  { rewrite save_score_fails by (done || by left). simpl.
    repeat split; done. }
  destruct (storage_writable st) eqn:Hw.
  - rewrite (save_score_ok _ _ _ _ table) by done. simpl.
    repeat split; [done| by exists table|..];
      unfold set_scores_file; by destruct (String.eqb md "single").
  - rewrite save_score_fails by (done || by right). simpl.
    repeat split; done.
Qed.

(** X13.  A save under one key and mode leaves the stored score of every
    other key, and every score of the other mode, unchanged. *)
Theorem save_score_frame md identifier score_data st md' key :
  md' = "single"%string \/ md' = "multi"%string ->
  md' <> md \/ key <> identifier ->
  (md = "single"%string \/ md = "multi"%string) ->
  stored_score md' key (_save_score md identifier score_data st).2 =
  stored_score md' key st.
Proof.
  intros Hmd' Hother Hmd.
  destruct (lock_held st) eqn:Hk; [by rewrite save_score_blocked|].
  destruct (scores_file md st) as [|table] eqn:Hf;
    [by rewrite save_score_fails by (done || by left)|].
  destruct (storage_writable st) eqn:Hw;
    [|by rewrite save_score_fails by (done || by right)].
  rewrite (save_score_ok md identifier score_data st table) by done.
  cbn [snd].
  unfold stored_score, get_scores, read_scores, scores_file, set_scores_file
    in *. unfold_monad.
  destruct Hmd as [-> | ->], Hmd' as [-> | ->]; simpl in *.
  - rewrite Hf. destruct Hother as [?|Hkey]; [done|].
    by rewrite lookup_put_other by congruence.
  - by destruct (multi_scores_file st).
  - by destruct (single_scores_file st).
  - rewrite Hf. destruct Hother as [?|Hkey]; [done|].
    by rewrite lookup_put_other by congruence.
Qed.

Lemma better_spec stored v :
  better stored v <= v /\
  (forall old, stored = Some old -> better stored v <= old) /\
  (better stored v = v \/ stored = Some (better stored v)).
Proof.
  unfold better. destruct stored as [old|].
  - destruct (Z.ltb_spec v old); repeat split; try lia;
      try (intros ? [= <-]; lia); auto.
  - repeat split; [lia|done|by left].
Qed.

Lemma save_all_state key values st table :
  lock_held st = false -> storage_writable st = true ->
  single_scores_file st = Json table ->
  exists table',
    single_scores_file (save_all key values st) = Json table' /\
    lock_held (save_all key values st) = false /\
    storage_writable (save_all key values st) = true /\
    table' !! key = foldl (fun s v => Some (better s v)) (table !! key) values.
Proof.
  revert st table. induction values as [|v values IH]; intros st table Hk Hw Hf.
  - by exists table.
  - simpl. destruct (after_put_single key v st table Hk Hw Hf) as (Hf' & Hk' & Hw').
    destruct (IH _ _ Hk' Hw' Hf') as (table' & ? & ? & ? & Hfold).
    exists table'. repeat split; try done.
    by rewrite Hfold, lookup_put_single.
Qed.

Lemma best_fold_spec (values : list Z) (stored : option Z) (v : Z) :
  exists best,
    foldl (fun s v => Some (better s v)) stored (v :: values) = Some best /\
    (forall x, x ∈ v :: values -> best <= x) /\
    (forall old, stored = Some old -> best <= old) /\
    (best ∈ v :: values \/ stored = Some best).
Proof.
  revert stored v. induction values as [|w values IH]; intros stored v.
  - exists (better stored v). destruct (better_spec stored v) as (Hv & Hold & Hmem).
    split; [done|]. split; [|split; [done|]].
    + intros x Hx. by apply list_elem_of_singleton in Hx as ->.
    + destruct Hmem as [->|?]; [left; apply list_elem_of_here | by right].
  - destruct (IH (Some (better stored v)) w) as (best & Hfold & Hle & Hold & Hmem).
    destruct (better_spec stored v) as (Hv & Hold' & Hmem').
    specialize (Hold _ eq_refl).
    exists best. split; [done|]. split; [|split].
    + intros x Hx. apply elem_of_cons in Hx as [->|Hx]; [lia|by apply Hle].
    + intros old Hs. specialize (Hold' old Hs). lia.
    + destruct Hmem as [Hin|[= Hb]].
      * left. by apply list_elem_of_further.
      * rewrite Hb in Hmem'. destruct Hmem' as [->|?];
          [left; apply list_elem_of_here | by right].
Qed.

(** X14.  After any non-empty run of single-mode saves under one key the
    stored score is the least of the saved values and the value stored
    before: a lower bound of them all, and one of them. *)
Theorem best_score_kept key values st table :
  lock_held st = false -> storage_writable st = true ->
  single_scores_file st = Json table -> values <> [] ->
  exists best,
    stored_score "single" key (save_all key values st) = Some best /\
    (forall v, v ∈ values -> best <= v) /\
    (forall old, table !! key = Some old -> best <= old) /\
    (best ∈ values \/ table !! key = Some best).
Proof.
  intros Hk Hw Hf Hne.
  destruct (save_all_state key values st table Hk Hw Hf)
    as (table' & Hf' & _ & _ & Hfold).
  destruct values as [|v values]; [done|].
  destruct (best_fold_spec values (table !! key) v) as (best & Hbest & Hspec).
  exists best. by rewrite (stored_single key _ table' Hf'), Hfold, Hbest.
Qed.

(** X14 for the saves 5, 3, 6 on an empty table. *)
Lemma best_score_kept_witness :
  exists best,
    stored_score "single" "easy" (save_all "easy" [5; 3; 6] healthy) = Some best /\
    (forall v, v ∈ [5; 3; 6] -> best <= v).
Proof.
  destruct (best_score_kept "easy" [5; 3; 6] healthy ∅ eq_refl eq_refl eq_refl)
    as (best & Hs & Hle & _); [done|].
  exists best. by split.
Defined.

Lemma randint_in_range entropy lo hi :
  lo <= hi -> lo <= randint entropy lo hi <= hi.
Proof.
  intros H. unfold randint.
  pose proof (Z.mod_pos_bound entropy (hi - lo + 1)). lia.
Qed.

Lemma randint_onto lo hi t :
  lo <= t <= hi -> randint (t - lo) lo hi = t.
Proof. intros H. unfold randint. rewrite Z.mod_small; lia. Qed.

Lemma RANGES_table diff r :
  RANGES diff = Some r ->
  (diff = "easy"%string /\ r = (1, 50)) \/
  (diff = "medium"%string /\ r = (1, 100)) \/
  (diff = "hard"%string /\ r = (1, 500)).
Proof.
  unfold RANGES.
  destruct (String.eqb_spec diff "easy"); [intros [= <-]; auto|].
  destruct (String.eqb_spec diff "medium"); [intros [= <-]; auto|].
  destruct (String.eqb_spec diff "hard"); [intros [= <-]; auto 10|done].
Qed.

(** The registration step shared by all successful starts. *)
Lemma register_single uuid4 entropy now diff r st :
  lock_held st = false ->
  (with_lock
     (modify (fun st => set_active_games
        (<[uuid4 := Game "single" (Some (randint entropy r.1 r.2)) 0
                      (MAX_ATTEMPTS "single") r now (Some diff) None None None
                      None None]> (active_games st)) st)) ;;;
   ret (StartResult uuid4 r (MAX_ATTEMPTS "single"))) st =
  (Returned (StartResult uuid4 r 6),
   with_game uuid4 (single_session (randint entropy r.1 r.2) r now diff) st).
Proof.
  intros Hk. unfold_monad. rewrite Hk. simpl.
  unfold with_game, single_session. destruct st; simpl in *. by subst.
Qed.

Lemma register_single_blocked uuid4 entropy now diff r st :
  lock_held st = true ->
  (with_lock
     (modify (fun st => set_active_games
        (<[uuid4 := Game "single" (Some (randint entropy r.1 r.2)) 0
                      (MAX_ATTEMPTS "single") r now (Some diff) None None None
                      None None]> (active_games st)) st)) ;;;
   ret (StartResult uuid4 r (MAX_ATTEMPTS "single"))) st = (Blocked, st).
Proof. intros Hk. unfold_monad. by rewrite Hk. Qed.

(** X16.  For a difficulty of the fixed table and a free lock,
    [start_singleplayer] returns the range of the table and 6 attempts, and
    registers under the new id a session with that range, no attempt used
    and a target inside the range. *)
Theorem start_singleplayer_fixed uuid4 entropy now diff r st custom_range :
  RANGES diff = Some r -> lock_held st = false ->
  exists t,
    r.1 <= t <= r.2 /\
    start_singleplayer uuid4 entropy now diff custom_range st =
      (Returned (StartResult uuid4 r 6),
       with_game uuid4 (single_session t r now diff) st).
Proof.
  intros Hr Hk. exists (randint entropy r.1 r.2). split.
  { apply randint_in_range.
    destruct (RANGES_table _ _ Hr) as [[_ ->]|[[_ ->]|[_ ->]]]; simpl; lia. }
  assert (Hc : String.eqb diff "custom" = false).
  { destruct (RANGES_table _ _ Hr) as [[-> _]|[[-> _]|[-> _]]]; done. }
  unfold start_singleplayer. rewrite Hc, Hr.
  unfold try_except. unfold bind at 1. unfold ret at 1.
  by rewrite register_single.
Qed.

(** X16 for the difficulty hard. *)
Lemma start_singleplayer_fixed_witness :
  exists t,
    1 <= t <= 500 /\
    start_singleplayer "g1" 6 0 "hard" None healthy =
      (Returned (StartResult "g1" (1, 500) 6),
       with_game "g1" (single_session t (1, 500) 0 "hard") healthy).
Proof.
  apply (start_singleplayer_fixed "g1" 6 0 "hard" (1, 500) healthy None);
    reflexivity.
Defined.

(** X17.  With difficulty custom and a pair of integers,
    [start_singleplayer] succeeds exactly when 1 <= min < max <= 1000000; a
    rejected pair fails with a validation error wrapped in "Failed to start
    game" and changes nothing. *)
Theorem start_singleplayer_custom uuid4 entropy now lo hi st :
  lock_held st = false ->
  (acceptable_custom_range lo hi ->
     exists t, lo <= t <= hi /\
       start_singleplayer uuid4 entropy now "custom"
         (Some [PyInt lo; PyInt hi]) st =
         (Returned (StartResult uuid4 (lo, hi) 6),
          with_game uuid4 (single_session t (lo, hi) now "custom") st)) /\
  (~ acceptable_custom_range lo hi ->
     exists e,
       start_singleplayer uuid4 entropy now "custom"
         (Some [PyInt lo; PyInt hi]) st = (Raised (FailedToStartGame e), st) /\
       is_validation_error e = true).
Proof.
  intros Hk. unfold acceptable_custom_range, start_singleplayer.
  simpl String.eqb. cbv iota. unfold _validate_custom_range. simpl as_int.
  cbv iota. unfold try_except. unfold bind at 1. split.
  - intros (H1 & H2 & H3). exists (randint entropy lo hi).
    split; [apply randint_in_range; lia|].
    destruct (Z.ltb_spec lo 1); [lia|]. destruct (Z.leb_spec hi lo); [lia|].
    destruct (hi >? 1000000) eqn:E; [apply Z.gtb_lt in E; lia|].
    unfold ret at 1.
    by rewrite (register_single uuid4 entropy now "custom" (lo, hi)).
  - intros Hbad.
    destruct (Z.ltb_spec lo 1); [by eexists|].
    destruct (Z.leb_spec hi lo); [by eexists|].
    destruct (hi >? 1000000) eqn:E; [by eexists|].
    exfalso. apply Hbad. repeat split; lia.
Qed.

(** X17: (10, 20) is accepted, (0, 20) is not. *)
Lemma start_singleplayer_custom_witness :
  (exists t, 10 <= t <= 20 /\
     start_singleplayer "g1" 3 0 "custom" (Some [PyInt 10; PyInt 20]) healthy =
       (Returned (StartResult "g1" (10, 20) 6),
        with_game "g1" (single_session t (10, 20) 0 "custom") healthy)) /\
  (exists e,
     start_singleplayer "g1" 3 0 "custom" (Some [PyInt 0; PyInt 20]) healthy =
       (Raised (FailedToStartGame e), healthy) /\
     is_validation_error e = true).
Proof.
  split.
  - apply (start_singleplayer_custom "g1" 3 0 10 20 healthy eq_refl).
    unfold acceptable_custom_range. lia.
  - apply (start_singleplayer_custom "g1" 3 0 0 20 healthy eq_refl).
    unfold acceptable_custom_range. lia.
Defined.

Lemma validate_custom_range_result a b st :
  match _validate_custom_range a b st with
  | (Returned r, st') =>
      st' = st /\ as_int a = Some r.1 /\ as_int b = Some r.2 /\
      acceptable_custom_range r.1 r.2
  | (Raised e, st') => st' = st /\ is_validation_error e = true
  | (Blocked, _) => False
  end.
Proof.
  unfold _validate_custom_range, acceptable_custom_range.
  destruct (as_int a) as [lo|]; [|done].
  destruct (as_int b) as [hi|]; [|done].
  destruct (Z.ltb_spec lo 1); [done|].
  destruct (Z.leb_spec hi lo); [done|].
  destruct (hi >? 1000000) eqn:E; [done|]. simpl. repeat split; lia.
Qed.

Lemma start_singleplayer_cases uuid4 entropy now diff custom_range st :
  match start_singleplayer uuid4 entropy now diff custom_range st with
  | (Returned res, st') =>
      lock_held st = false /\
      res_game_id res = uuid4 /\ res_max_attempts res = 6 /\
      1 <= (res_range res).1 < (res_range res).2 /\
      (diff <> "custom"%string -> RANGES diff = Some (res_range res)) /\
      exists t, (res_range res).1 <= t <= (res_range res).2 /\
        st' = with_game uuid4 (single_session t (res_range res) now diff) st
  | (Raised e, st') =>
      st' = st /\
      exists cause, e = FailedToStartGame cause /\
                    is_validation_error cause = true
  | (Blocked, st') => st' = st /\ lock_held st = true
  end.
Proof.
  assert (Hreg : forall r,
            1 <= r.1 < r.2 ->
            (diff <> "custom"%string -> RANGES diff = Some r) ->
            match
              try_except
                ((with_lock
                   (modify (fun st => set_active_games
                      (<[uuid4 := Game "single" (Some (randint entropy r.1 r.2))
                             0 (MAX_ATTEMPTS "single") r now (Some diff) None
                             None None None None]> (active_games st)) st)) ;;;
                 ret (StartResult uuid4 r (MAX_ATTEMPTS "single"))))
                (fun e => raise (FailedToStartGame e)) st
            with
            | (Returned res, st') =>
                lock_held st = false /\
                res_game_id res = uuid4 /\ res_max_attempts res = 6 /\
                1 <= (res_range res).1 < (res_range res).2 /\
                (diff <> "custom"%string -> RANGES diff = Some (res_range res)) /\
                exists t, (res_range res).1 <= t <= (res_range res).2 /\
                  st' = with_game uuid4
                          (single_session t (res_range res) now diff) st
            | (Raised e, st') =>
                st' = st /\
                exists cause, e = FailedToStartGame cause /\
                              is_validation_error cause = true
            | (Blocked, st') => st' = st /\ lock_held st = true
            end).
  { intros r Hr Htab. unfold try_except. destruct (lock_held st) eqn:Hk.
    - by rewrite register_single_blocked.
    - rewrite register_single by done. simpl. repeat split; try done; try lia.
      exists (randint entropy r.1 r.2). split; [|done].
      apply randint_in_range. lia. }
  unfold start_singleplayer.
  destruct (String.eqb_spec diff "custom") as [->|Hdiff].
  - destruct custom_range as [[|a [|b [|c l]]]|];
      try (unfold try_except, bind, raise; simpl; by eauto).
    pose proof (validate_custom_range_result a b st) as Hv.
    unfold try_except in *. unfold bind at 1.
    destruct (_validate_custom_range a b st) as [[r|e|] st1].
    + destruct Hv as (-> & _ & _ & Hacc).
      unfold acceptable_custom_range in Hacc. apply Hreg; [lia|done].
    + destruct Hv as [-> He]. simpl. eauto.
    + done.
  - destruct (RANGES diff) as [r|] eqn:Hr.
    + unfold try_except in *. unfold bind at 1. unfold ret at 1.
      apply Hreg; [|done].
      destruct (RANGES_table _ _ Hr) as [[_ ->]|[[_ ->]|[_ ->]]]; simpl; lia.
    + unfold try_except, bind, raise. simpl. eauto.
Qed.

Lemma start_multiplayer_cases uuid4 now p1 p2 st :
  match start_multiplayer uuid4 now p1 p2 st with
  | (Returned res, st') =>
      p1 <> ""%string /\ p2 <> ""%string /\ p1 <> p2 /\
      lock_held st = false /\
      res = StartResult uuid4 (1, 100) 8 /\
      st' = with_game uuid4 (multi_session now p1 p2) st
  | (Raised e, st') =>
      st' = st /\
      ((e = BothNamesRequired /\ (p1 = ""%string \/ p2 = ""%string)) \/
       (e = PlayersMustDiffer /\ p1 = p2 /\ p1 <> ""%string))
  | (Blocked, st') => st' = st /\ lock_held st = true
  end.
Proof.
  unfold start_multiplayer.
  destruct (String.eqb_spec p1 "") as [->|H1]; [simpl; auto|].
  destruct (String.eqb_spec p2 "") as [->|H2]; [simpl; auto|].
  cbn [orb].
  destruct (String.eqb_spec p1 p2) as [->|H12]; [simpl; auto 10|].
  unfold_monad. cbv beta iota.
  destruct (lock_held st) eqn:Hk; [by simpl|]. simpl.
  repeat split; try done. unfold with_game, multi_session.
  destruct st; simpl in *. by subst.
Qed.

Lemma set_target_number_cases game_id number st :
  match set_target_number game_id number st with
  | (Returned _, st') =>
      exists g n,
        active_games st !! game_id = Some g /\
        status g = Some "waiting_for_number"%string /\
        as_int number = Some n /\ (range g).1 <= n <= (range g).2 /\
        st' = with_game game_id (target_set n g) st
  | (Raised e, st') =>
      st' = st /\
      match active_games st !! game_id with
      | None => e = InvalidOrExpiredSession
      | Some g =>
          match status g with
          | None => e = KeyError "status"
          | Some s =>
              if String.eqb s "waiting_for_number"
              then e = NumberMustBeBetween (range g).1 (range g).2 /\
                   invalid_guess g number
              else e = CannotSetTarget
          end
      end
  | (Blocked, _) => False
  end.
Proof.
  unfold set_target_number, _validate_game_id, bind, get_state.
  destruct (active_games st !! game_id) as [g|] eqn:Hg; [|done].
  unfold ret at 1. cbv beta iota. rewrite Hg.
  destruct (status g) as [s|] eqn:Hs; [|done].
  destruct (String.eqb s "waiting_for_number") eqn:Es; [|done].
  cbn [negb]. cbv beta iota. apply String.eqb_eq in Es as ->.
  unfold bind.
  destruct (valid_or_invalid g number) as [Hi|[n [Hn Hr]]].
  - rewrite number_range_bad by done. done.
  - rewrite (number_range_ok number n) by done. unfold modify.
    exists g, n. rewrite Hn. done.
Qed.

Lemma table_step_keeps (Q : game -> Prop) game_id P st st' :
  table_step game_id P st st' ->
  (forall g', P g' -> Q g') ->
  (forall i g, active_games st !! i = Some g -> Q g) ->
  forall i g, active_games st' !! i = Some g -> Q g.
Proof.
  intros [-> | [-> | (g' & Hg' & ->)]] HP HQ i g Hi.
  - by eapply HQ.
  - apply lookup_delete_Some in Hi as [_ Hi]. by eapply HQ.
  - apply lookup_insert_Some in Hi as [[_ <-] | [_ Hi]]; [by apply HP|].
    by eapply HQ.
Qed.

Lemma active_games_without game_id st :
  active_games (without game_id st) = delete game_id (active_games st).
Proof. by destruct st. Qed.

Lemma active_games_with_game game_id g st :
  active_games (with_game game_id g st) = <[game_id := g]> (active_games st).
Proof. by destruct st. Qed.

Lemma guess_table_step now game_id value st :
  table_step game_id
    (fun g' => exists g, active_games st !! game_id = Some g /\
                         g' = with_attempts (attempts g + 1) g)
    st (process_guess now game_id value st).2.
Proof.
  unfold table_step.
  destruct (process_guess_cases now game_id value st);
    rewrite ?active_games_set_scores_file, ?active_games_without,
      ?active_games_with_game; auto;
    right; right; eexists; (split; [|done]);
    match goal with H : live_session _ _ _ _ |- _ =>
      destruct H as (_ & ? & _) end; eauto.
Qed.

Lemma set_target_table_step game_id number st :
  table_step game_id
    (fun g' => exists g n, active_games st !! game_id = Some g /\
                 status g = Some "waiting_for_number"%string /\
                 (range g).1 <= n <= (range g).2 /\ g' = target_set n g)
    st (set_target_number game_id number st).2.
Proof.
  unfold table_step.
  pose proof (set_target_number_cases game_id number st) as H.
  destruct (set_target_number game_id number st) as [[[]|e|] st']; cbn [snd].
  - destruct H as (g & n & Hg & Hs & _ & Hr & ->).
    right; right. eexists. split; [|apply active_games_with_game]. eauto 10.
  - destruct H as [-> _]. auto.
  - done.
Qed.

Lemma end_game_table_step game_id st :
  table_step game_id (fun _ => False) st (end_game game_id st).2.
Proof.
  unfold table_step. destruct (lock_held st) eqn:Hk.
  - rewrite end_game_blocked by done. auto.
  - rewrite end_game_free by done. cbn [snd].
    rewrite active_games_without. auto.
Qed.

Lemma create_single_table_step uuid4 entropy now diff custom_range st :
  table_step uuid4
    (fun g' => exists t r, 1 <= r.1 < r.2 /\ r.1 <= t <= r.2 /\
                           g' = single_session t r now diff)
    st (start_singleplayer uuid4 entropy now diff custom_range st).2.
Proof.
  unfold table_step.
  pose proof (start_singleplayer_cases uuid4 entropy now diff custom_range st)
    as H.
  destruct (start_singleplayer _ _ _ _ _ st) as [[res|e|] st']; cbn [snd].
  - destruct H as (_ & _ & _ & Hr & _ & t & Ht & ->).
    right; right. eexists. split; [|apply active_games_with_game]. eauto 10.
  - destruct H as [-> _]. auto.
  - destruct H as [-> _]. auto.
Qed.

Lemma create_multi_table_step uuid4 now p1 p2 st :
  table_step uuid4 (fun g' => g' = multi_session now p1 p2)
    st (start_multiplayer uuid4 now p1 p2 st).2.
Proof.
  unfold table_step.
  pose proof (start_multiplayer_cases uuid4 now p1 p2 st) as H.
  destruct (start_multiplayer _ _ _ _ st) as [[res|e|] st']; cbn [snd].
  - destruct H as (_ & _ & _ & _ & _ & ->).
    right; right. eexists. split; [|apply active_games_with_game]. done.
  - destruct H as [-> _]. auto.
  - destruct H as [-> _]. auto.
Qed.

Lemma wf_with_attempts g a : wf_session g -> 0 <= a -> wf_session (with_attempts a g).
Proof.
  intros (? & ? & ? & ?) ?. split; [done|]. split; [done|]. by split.
Qed.

Lemma wf_target_set g n :
  wf_session g -> status g = Some "waiting_for_number"%string ->
  (range g).1 <= n <= (range g).2 -> wf_session (target_set n g).
Proof.
  intros (? & ? & ? & [(_ & _ & _ & _ & Hs)|(? & ? & ? & ? & _)]) Hw Hr;
    [congruence|].
  split; [done|]. split; [done|]. split.
  - by intros t [= <-].
  - right. repeat split; try done. right. by split; [|eexists].
Qed.

Lemma wf_single_session t r now diff :
  1 <= r.1 < r.2 -> r.1 <= t <= r.2 -> wf_session (single_session t r now diff).
Proof.
  intros ? ?. split; [done|]. split; [done|]. split.
  - by intros ? [= <-].
  - left. repeat split; by eexists.
Qed.

Lemma wf_multi_session now p1 p2 : wf_session (multi_session now p1 p2).
Proof.
  split; [done|]. split; [done|]. split; [done|].
  right. repeat split; try done. by left.
Qed.

Lemma run_op_wf o st : registry_wf st -> registry_wf (run_op o st).
Proof.
  intros Hwf. unfold registry_wf. destruct o; simpl.
  - eapply table_step_keeps; [apply create_single_table_step| |done].
    intros g' (t & r & ? & ? & ->). by apply wf_single_session.
  - eapply table_step_keeps; [apply create_multi_table_step| |done].
    intros g' ->. apply wf_multi_session.
  - eapply table_step_keeps; [apply set_target_table_step| |done].
    intros g' (g & n & Hg & Hs & Hr & ->). apply wf_target_set; eauto.
  - eapply table_step_keeps; [apply guess_table_step| |done].
    intros g' (g & Hg & ->). specialize (Hwf _ _ Hg).
    apply wf_with_attempts; [done|]. destruct Hwf. lia.
  - eapply table_step_keeps; [apply end_game_table_step| |done]. by intros ? [].
  - by rewrite sweep_registry.
Qed.

Lemma run_ops_wf ops st : registry_wf st -> registry_wf (run_ops ops st).
Proof.
  revert st. induction ops as [|o ops IH]; intros st Hst; [done|].
  simpl. apply IH. by apply run_op_wf.
Qed.

Lemma init_wf single_file multi_file writable :
  registry_wf (init single_file multi_file writable).
Proof.
  intros i g Hi. unfold init in Hi. simpl in Hi.
  by rewrite lookup_empty in Hi.
Qed.

(** X22.  Every session registered after any sequence of calls on a fresh
    manager is well formed: attempts are not negative, the range satisfies
    1 <= min < max, a target that is set lies in the range; single sessions
    have a target, a difficulty and ceiling 6; multi sessions have range
    (1, 100), ceiling 8, and no target exactly while they wait for the
    number. *)
Theorem reachable_sessions_wf ops single_file multi_file writable :
  registry_wf (run_ops ops (init single_file multi_file writable)).
Proof.
  generalize (init_wf single_file multi_file writable).
  generalize (init single_file multi_file writable) as st.
  induction ops as [|o ops IH]; intros st Hst; [done|].
  simpl. apply IH. by apply run_op_wf.
Qed.

Lemma table_step_relates (R : game -> game -> Prop) game_id P st st' :
  table_step game_id P st st' ->
  (forall g, R g g) ->
  (forall g g', active_games st !! game_id = Some g -> P g' -> R g g') ->
  forall i g g',
    active_games st !! i = Some g -> active_games st' !! i = Some g' -> R g g'.
Proof.
  intros [-> | [-> | (g0 & Hg0 & ->)]] Hrefl HP i g g' Hi Hi'.
  - by simplify_eq.
  - apply lookup_delete_Some in Hi' as [_ Hi']. by simplify_eq.
  - apply lookup_insert_Some in Hi' as [[<- <-] | [_ Hi']].
    + by apply HP.
    + by simplify_eq.
Qed.

(** X23.  No call changes the mode, range, ceiling, start time, difficulty or
    players of a session that exists before and after it, unless the call
    registers a session under that very id.  In particular a guess never
    renews the start time. *)
Theorem session_identity_kept o st i g g' :
  ~ creates o i ->
  active_games st !! i = Some g ->
  active_games (run_op o st) !! i = Some g' ->
  same_identity g g'.
Proof.
  intros Hc Hg Hg'. destruct o; simpl in *.
  - pose proof (create_single_table_step uuid4 entropy now diff custom_range st)
      as [Heq | [Heq | (g0 & _ & Heq)]]; rewrite Heq in Hg'.
    + by simplify_eq.
    + apply lookup_delete_Some in Hg' as [_ Hg']. by simplify_eq.
    + rewrite lookup_insert_ne in Hg' by done. by simplify_eq.
  - pose proof (create_multi_table_step uuid4 now p1 p2 st)
      as [Heq | [Heq | (g0 & _ & Heq)]]; rewrite Heq in Hg'.
    + by simplify_eq.
    + apply lookup_delete_Some in Hg' as [_ Hg']. by simplify_eq.
    + rewrite lookup_insert_ne in Hg' by done. by simplify_eq.
  - eapply (table_step_relates same_identity);
      [apply set_target_table_step|done| |done..].
    intros g1 g2 Hg1 (g0 & n & Hg0 & _ & _ & ->). by simplify_eq.
  - eapply (table_step_relates same_identity);
      [apply guess_table_step|done| |done..].
    intros g1 g2 Hg1 (g0 & Hg0 & ->). by simplify_eq.
  - eapply (table_step_relates same_identity);
      [apply end_game_table_step|done| |done..].
    by intros ? ? ? [].
  - rewrite sweep_registry in Hg'. by simplify_eq.
Qed.

(** X23 for a guess that continues the easy session. *)
Lemma session_identity_kept_witness :
  same_identity easy_session (with_attempts 1 easy_session).
Proof.
  apply (session_identity_kept (guess (seconds 10) "g1" (PyInt 9))
           (one_single healthy) "g1").
  - simpl. tauto.
  - vm_compute. reflexivity.
  - vm_compute. reflexivity.
Defined.

(** X24.  Started with a free lock and a single scores file that can be read
    and written, every call keeps attempts < max_attempts for all
    registered sessions. *)
Theorem attempts_stay_below_ceiling o st table :
  registry_wf st -> strictly_bounded st ->
  lock_held st = false -> single_scores_file st = Json table ->
  storage_writable st = true ->
  strictly_bounded (run_op o st).
Proof.
  intros Hwf Hb Hk Hf Hw. unfold strictly_bounded. destruct o; simpl.
  - eapply table_step_keeps; [apply create_single_table_step| |done].
    by intros g' (t & r & _ & _ & ->).
  - eapply table_step_keeps; [apply create_multi_table_step| |done].
    by intros g' ->.
  - eapply table_step_keeps; [apply set_target_table_step| |done].
    intros g' (g & n & Hg & _ & _ & ->). simpl.
    destruct (Hwf _ _ Hg) as (? & _). specialize (Hb _ _ Hg). lia.
  - intros i g' Hi.
    destruct (process_guess_cases now game_id value st);
      rewrite ?active_games_set_scores_file in Hi;
      try (by eapply Hb);
      try (rewrite active_games_without in Hi;
           apply lookup_delete_Some in Hi as [_ Hi]; by eapply Hb);
      try congruence.
    + rewrite active_games_with_game in Hi.
      apply lookup_insert_Some in Hi as [[_ <-] | [_ Hi]]; [done|by eapply Hb].
    + rewrite active_games_with_game in Hi.
      apply lookup_insert_Some in Hi as [[_ <-] | [_ Hi]]; [done|by eapply Hb].
    + match goal with H : live_session _ _ _ _ |- _ =>
        destruct H as (_ & Hg & _) end.
      destruct (Hwf _ _ Hg) as (_ & _ & _ & [(_ & _ & _ & [d Hd] & _)|(? & _)]);
        congruence.
    + match goal with H : persistence_fails _ |- _ =>
        destruct H; congruence end.
  - eapply table_step_keeps; [apply end_game_table_step| |done]. by intros ? [].
  - by rewrite sweep_registry.
Qed.

(** X24 for a guess on the easy session. *)
Lemma attempts_stay_below_ceiling_witness :
  strictly_bounded
    (run_op (guess (seconds 10) "g1" (PyInt 9)) (one_single healthy)).
Proof.
  assert (Hreg : forall i g, active_games (one_single healthy) !! i = Some g ->
                             g = easy_session).
  { intros i g Hi.
    change (active_games (one_single healthy))
      with (<["g1"%string := easy_session]> (∅ : gmap string game)) in Hi.
    apply lookup_insert_Some in Hi as [[_ <-] | [_ Hi]]; [done|].
    by rewrite lookup_empty in Hi. }
  apply (attempts_stay_below_ceiling _ _ ∅); try reflexivity.
  - intros i g Hi. rewrite (Hreg i g Hi). apply wf_single_session; simpl; lia.
  - intros i g Hi. rewrite (Hreg i g Hi). simpl. lia.
Defined.

Lemma without_with_game game_id g st :
  without game_id (with_game game_id g st) = without game_id st.
Proof.
  unfold without, with_game. destruct st; simpl. by rewrite delete_insert_eq.
Qed.

Lemma with_game_with_game game_id g g' st :
  with_game game_id g' (with_game game_id g st) = with_game game_id g' st.
Proof.
  unfold with_game. destruct st; simpl. by rewrite insert_insert_eq.
Qed.

(** X25.  On a session with a target, as many valid wrong guesses as attempts
    remain, each made before the expiry test trips, give continue every
    time but the last, which gives lose, reveals the target and removes the
    session. *)
Theorem wrong_guesses_end_in_lose moves game_id st g t :
  game_id <> ""%string -> active_games st !! game_id = Some g ->
  target g = Some t ->
  Z.of_nat (length moves) = max_attempts g - attempts g ->
  moves <> [] ->
  Forall (wrong_move g t) moves ->
  exists hints,
    (play game_id moves st).1 = hints ++ [Returned (Lose (Some t))] /\
    Forall is_continue hints /\
    (play game_id moves st).2 = without game_id st.
Proof.
  revert st g. induction moves as [|[now value] rest IH];
    intros st g Hid Hg Ht Hlen Hne Hall; [done|].
  apply Forall_cons in Hall as [(Hnow & n & Hv & Hn) Hrest].
  assert (Hl : live_session now game_id g st) by done.
  simpl. destruct rest as [|move rest].
  - exists []. simpl in *.
    rewrite (guess_miss_lose now game_id value st g n);
      [by rewrite Ht|done..|congruence|lia].
  - rewrite (guess_miss_continue now game_id value st g n t);
      [|done..|simpl length in Hlen; lia].
    cbn [fst snd].
    set (g' := with_attempts (attempts g + 1) g).
    destruct (IH (with_game game_id g' st) g') as (hints & Hplay & Hcont & Hend).
    + done.
    + apply lookup_with_game.
    + done.
    + simpl length in *. simpl. lia.
    + done.
    + done.
    + eexists (_ :: hints). rewrite Hplay, Hend. split; [done|].
      split; [|apply without_with_game].
      apply Forall_cons. split; [|done]. by eexists _, _, _.
Qed.

(** X25: six times the guess 1 against the target 7. *)
Lemma wrong_guesses_end_in_lose_witness :
  exists hints,
    (play "g1" (replicate 6 (seconds 10, PyInt 1)) (one_single healthy)).1
      = hints ++ [Returned (Lose (Some 7))] /\
    Forall is_continue hints /\
    (play "g1" (replicate 6 (seconds 10, PyInt 1)) (one_single healthy)).2
      = without "g1" (one_single healthy).
Proof.
  apply (wrong_guesses_end_in_lose _ "g1" (one_single healthy) easy_session 7).
  - done.
  - vm_compute. reflexivity.
  - reflexivity.
  - reflexivity.
  - done.
  - apply Forall_replicate. split; [by vm_compute|].
    exists 1. split; [|lia]. split; [reflexivity|]. by vm_compute.
Defined.

(** X5.  During the first day of a session the expiry test is exact up to
    whole seconds: the session is past it exactly when 1801 seconds or more
    have elapsed. *)
Theorem expiry_exact_within_a_day now start :
  0 <= elapsed_us now start < seconds 86400 ->
  (SESSION_TIMEOUT < timedelta_seconds now start <->
   seconds (SESSION_TIMEOUT + 1) <= elapsed_us now start).
Proof.
  unfold elapsed_us, timedelta_seconds, seconds, SESSION_TIMEOUT.
  intros H.
  assert (Hd : 0 <= (now - start) / 1000000 < 86400).
  { split; [apply Z.div_pos; lia | apply Z.div_lt_upper_bound; lia]. }
  rewrite Z.mod_small by done.
  pose proof (Z.div_mod (now - start) 1000000 ltac:(lia)).
  pose proof (Z.mod_pos_bound (now - start) 1000000 ltac:(lia)).
  lia.
Qed.

(** X5 at 1801 elapsed seconds. *)
Lemma expiry_exact_within_a_day_witness :
  SESSION_TIMEOUT < timedelta_seconds (seconds 1801) 0 <->
  seconds (SESSION_TIMEOUT + 1) <= elapsed_us (seconds 1801) 0.
Proof.
  apply expiry_exact_within_a_day. by vm_compute.
Defined.

(** X6.  A guess on a session past the expiry test removes the session and
    fails with "Game session has expired" when the lock is free; when the
    lock is held the call blocks and nothing changes.  The guess itself is
    never looked at. *)
Theorem expired_session_removed now game_id value st g :
  game_id <> ""%string -> active_games st !! game_id = Some g ->
  SESSION_TIMEOUT < timedelta_seconds now (start_time g) ->
  process_guess now game_id value st =
    if lock_held st then (Blocked, st)
    else (Raised (FailedToProcessGuess SessionHasExpired), without game_id st).
Proof.
  intros Hid Hg Ht. destruct (lock_held st) eqn:Hk.
  - by apply (process_guess_expired_blocked _ _ _ _ g).
  - by apply (process_guess_expired _ _ _ _ g).
Qed.

(** X6 on the easy session, 1801 seconds after its creation. *)
Lemma expired_session_removed_witness :
  process_guess (seconds 1801) "g1" (PyInt 7) (one_single healthy) =
    (Raised (FailedToProcessGuess SessionHasExpired), healthy).
Proof.
  apply (expired_session_removed (seconds 1801) "g1" (PyInt 7)
           (one_single healthy) easy_session).
  - done.
  - vm_compute. reflexivity.
  - by vm_compute.
Defined.

(** X7.  For an id that is not registered, [process_guess] and
    [set_target_number] fail with their session error and [end_game]
    returns (or waits for the lock); none of them changes the manager. *)
Theorem unknown_id_rejected now game_id value st :
  active_games st !! game_id = None ->
  process_guess now game_id value st =
    (Raised (FailedToProcessGuess
               (if String.eqb game_id "" then NoActiveGameSession
                else SessionExpiredOrInvalid)), st) /\
  set_target_number game_id value st = (Raised InvalidOrExpiredSession, st) /\
  end_game game_id st = (if lock_held st then Blocked else Returned tt, st).
Proof.
  intros Hg. split; [|split].
  - unfold process_guess, _validate_game_session.
    destruct (String.eqb game_id ""); [done|]. unfold_monad. by rewrite Hg.
  - by apply set_target_absent.
  - destruct (lock_held st) eqn:Hk; [by apply end_game_blocked|].
    by apply end_game_absent.
Qed.

(** X7 on a manager without sessions. *)
Lemma unknown_id_rejected_witness :
  process_guess 0 "nobody" (PyInt 7) healthy =
    (Raised (FailedToProcessGuess SessionExpiredOrInvalid), healthy) /\
  set_target_number "nobody" (PyInt 7) healthy =
    (Raised InvalidOrExpiredSession, healthy) /\
  end_game "nobody" healthy = (Returned tt, healthy).
Proof.
  apply (unknown_id_rejected 0 "nobody" (PyInt 7) healthy). reflexivity.
Defined.

(** X8.  The sweep never removes a session and never touches the score files,
    whatever the state: when it returns it has only started the next
    timer. *)
Theorem sweep_never_removes now st :
  let st' := (_cleanup_expired_sessions now st).2 in
  active_games st' = active_games st /\
  single_scores_file st' = single_scores_file st /\
  multi_scores_file st' = multi_scores_file st /\
  ((_cleanup_expired_sessions now st).1 = Returned tt ->
     lock_held st = false /\ st' = start_timer st).
Proof.
  simpl. destruct (lock_held st) eqn:Hk; [by rewrite sweep_waits|].
  destruct (expired_ids now (active_games st)) as [|i l] eqn:He.
  - rewrite sweep_idle by done. by destruct st.
  - rewrite sweep_blocked by (done || by rewrite He). by destruct st.
Qed.

(** X13: saving easy in single mode leaves hard, and the multi table,
    alone. *)
Lemma save_score_frame_witness :
  stored_score "single" "hard" (_save_score "single" "easy" 3 healthy).2 =
    stored_score "single" "hard" healthy /\
  stored_score "multi" "easy" (_save_score "single" "easy" 3 healthy).2 =
    stored_score "multi" "easy" healthy.
Proof.
  split.
  - apply save_score_frame; [by left | by right | by left].
  - apply save_score_frame; [by right | by left | by left].
Defined.

(** X15.  A winning guess on a single-mode session, with a score store that
    works, records the better of the stored score of its difficulty and the
    attempts used; other difficulties and the multiplayer table keep their
    scores. *)
Theorem win_records_best_score now game_id value st g n d table :
  live_session now game_id g st -> valid_guess g value n ->
  target g = Some n -> mode g = "single"%string -> difficulty g = Some d ->
  lock_held st = false -> single_scores_file st = Json table ->
  storage_writable st = true ->
  let st' := (process_guess now game_id value st).2 in
  stored_score "single" d st' = Some (better (table !! d) (attempts g + 1)) /\
  (forall d', d' <> d ->
     stored_score "single" d' st' = stored_score "single" d' st) /\
  (forall key, stored_score "multi" key st' = stored_score "multi" key st).
Proof.
  intros Hl Hv Ht Hm Hd Hk Hf Hw. simpl.
  rewrite (guess_win_single_saved now game_id value st g n d table) by done.
  cbn [snd]. split; [|split].
  - rewrite (stored_single d _ (put "single" d (attempts g + 1) table))
      by by destruct st.
    apply lookup_put_single.
  - intros d' Hd'.
    rewrite (stored_single d' _ (put "single" d (attempts g + 1) table))
      by by destruct st.
    rewrite (stored_single d' st table) by done.
    by rewrite lookup_put_other by congruence.
  - intros key.
    unfold stored_score, get_scores, read_scores, scores_file,
      set_scores_file, without.
    unfold_monad. destruct st as [ag lk sf mf w tm]. simpl. by destruct mf.
Qed.

(** X15: the first-guess win on the easy session stores 1. *)
Lemma win_records_best_score_witness :
  stored_score "single" "easy"
    (process_guess (seconds 10) "g1" (PyInt 7) (one_single healthy)).2
    = Some 1.
Proof.
  assert (Hl : live_session (seconds 10) "g1" easy_session (one_single healthy))
    by (repeat split; by vm_compute).
  assert (Hv : valid_guess easy_session (PyInt 7) 7)
    by (repeat split; by vm_compute).
  exact (proj1 (win_records_best_score (seconds 10) "g1" (PyInt 7)
                  (one_single healthy) easy_session 7 "easy" ∅ Hl Hv
                  eq_refl eq_refl eq_refl eq_refl eq_refl eq_refl)).
Defined.

(** X18.  A start that does not return leaves the manager unchanged; it
    blocks only on a held lock, and every error it raises is a validation
    error wrapped in "Failed to start game". *)
Theorem failed_start_changes_nothing uuid4 entropy now diff custom_range st :
  let r := start_singleplayer uuid4 entropy now diff custom_range st in
  (forall res, r.1 <> Returned res) ->
  r.2 = st /\
  (r.1 = Blocked -> lock_held st = true) /\
  (forall e, r.1 = Raised e ->
     exists cause, e = FailedToStartGame cause /\
                   is_validation_error cause = true).
Proof.
  simpl. intros Hfail.
  pose proof (start_singleplayer_cases uuid4 entropy now diff custom_range st)
    as H.
  destruct (start_singleplayer _ _ _ _ _ st) as [[res|e|] st']; simpl in *.
  - by destruct (Hfail res).
  - destruct H as [-> Hc]. split; [done|]. split; [done|].
    by intros ? [= <-].
  - destruct H as [-> Hk]. by repeat split.
Qed.

(** X18 for a difficulty that does not exist. *)
Lemma failed_start_changes_nothing_witness :
  (start_singleplayer "g1" 6 0 "extreme" None healthy).2 = healthy /\
  exists cause,
    InvalidDifficulty "extreme" = cause /\ is_validation_error cause = true.
Proof.
  destruct (failed_start_changes_nothing "g1" 6 0 "extreme" None healthy)
    as (Hst & _ & He); [done|].
  split; [exact Hst|].
  destruct (He (FailedToStartGame (InvalidDifficulty "extreme")) eq_refl)
    as (cause & [= <-] & Hc).
  by eexists.
Defined.

(** X19.  When [start_singleplayer] returns, the result names the id, 6
    attempts and a range with 1 <= min < max <= 1000000, and the session
    registered under the id has that range and a target inside it. *)
Theorem started_session_registered uuid4 entropy now diff custom_range st res :
  (start_singleplayer uuid4 entropy now diff custom_range st).1 = Returned res ->
  res_game_id res = uuid4 /\ res_max_attempts res = 6 /\
  1 <= (res_range res).1 < (res_range res).2 /\
  (res_range res).2 <= 1000000 /\
  exists t,
    (res_range res).1 <= t <= (res_range res).2 /\
    active_games (start_singleplayer uuid4 entropy now diff custom_range st).2
      !! uuid4 = Some (single_session t (res_range res) now diff).
Proof.
  intros Hr.
  pose proof (start_singleplayer_cases uuid4 entropy now diff custom_range st)
    as H.
  assert (Hmax : forall r, (start_singleplayer uuid4 entropy now diff
                              custom_range st).1 = Returned r ->
                           (res_range r).2 <= 1000000).
  { clear. intros r. unfold start_singleplayer, try_except. unfold bind at 1.
    destruct (String.eqb diff "custom").
    - destruct custom_range as [[|a [|b [|c l]]]|]; try done.
      pose proof (validate_custom_range_result a b st) as Hv.
      destruct (_validate_custom_range a b st) as [[rg|e|] st1]; try done.
      destruct Hv as (-> & _ & _ & _ & _ & Hhi).
      destruct (lock_held st) eqn:Hk.
      + by rewrite register_single_blocked.
      + rewrite register_single by done. by intros [= <-].
    - destruct (RANGES diff) as [rg|] eqn:Hrg; [|done]. unfold ret at 1.
      destruct (lock_held st) eqn:Hk.
      + by rewrite register_single_blocked.
      + rewrite register_single by done. intros [= <-]. simpl.
        destruct (RANGES_table _ _ Hrg) as [[_ ->]|[[_ ->]|[_ ->]]]; simpl; lia. }
  specialize (Hmax res Hr).
  destruct (start_singleplayer _ _ _ _ _ st) as [[res'|e|] st'];
    simpl in Hr; try done. injection Hr as ->.
  destruct H as (_ & ? & ? & ? & _ & t & ? & ->).
  repeat split; try done; try lia.
  exists t. split; [done|]. cbn [snd]. apply lookup_with_game.
Qed.

(** X19 for an easy start. *)
Lemma started_session_registered_witness :
  exists t,
    1 <= t <= 50 /\
    active_games (start_singleplayer "g1" 6 0 "easy" None healthy).2
      !! "g1"%string = Some (single_session t (1, 50) 0 "easy").
Proof.
  apply (started_session_registered "g1" 6 0 "easy" None healthy
           (StartResult "g1" (1, 50) 6)).
  vm_compute. reflexivity.
Defined.

(** X20.  With the lock free [start_multiplayer] is decided by the names: an
    empty name gives "Both player names are required", equal names give
    "Players must have different names", both without any change;
    otherwise the waiting session is registered, with range (1, 100) and 8
    attempts. *)
Theorem start_multiplayer_names uuid4 now p1 p2 st :
  lock_held st = false ->
  start_multiplayer uuid4 now p1 p2 st =
    if String.eqb p1 "" || String.eqb p2 "" then (Raised BothNamesRequired, st)
    else if String.eqb p1 p2 then (Raised PlayersMustDiffer, st)
    else (Returned (StartResult uuid4 (1, 100) 8),
          with_game uuid4 (multi_session now p1 p2) st).
Proof.
  intros Hk.
  pose proof (start_multiplayer_cases uuid4 now p1 p2 st) as H.
  destruct (start_multiplayer uuid4 now p1 p2 st) as [[res|e|] st'].
  - destruct H as (H1 & H2 & H12 & _ & -> & ->).
    apply String.eqb_neq in H1, H2, H12. by rewrite H1, H2, H12.
  - destruct H as [-> [[-> Hn] | (-> & -> & Hne)]].
    + destruct Hn as [-> | ->]; [done|]. by rewrite orb_true_r.
    + apply String.eqb_neq in Hne. by rewrite Hne, String.eqb_refl.
  - destruct H as [_ ?]. congruence.
Qed.

(** X20 for equal names and for an empty name. *)
Lemma start_multiplayer_names_witness :
  start_multiplayer "g2" 0 "ann" "ann" healthy =
    (Raised PlayersMustDiffer, healthy) /\
  start_multiplayer "g2" 0 "ann" "" healthy =
    (Raised BothNamesRequired, healthy).
Proof.
  split.
  - apply (start_multiplayer_names "g2" 0 "ann" "ann" healthy). reflexivity.
  - apply (start_multiplayer_names "g2" 0 "ann" "" healthy). reflexivity.
Defined.

(** X21.  [set_target_number] never blocks and never touches the lock or
    another session; when it fails nothing changes, and the error is
    decided by the session: unknown id, no status key (a single-player
    session: a [KeyError], not a [GameError]), wrong status, or a number
    that is not an integer of the range. *)
Theorem set_target_number_rejections game_id number st :
  let r := set_target_number game_id number st in
  r.1 <> Blocked /\
  lock_held r.2 = lock_held st /\
  (forall i, i <> game_id -> active_games r.2 !! i = active_games st !! i) /\
  (forall e, r.1 = Raised e ->
     r.2 = st /\
     match active_games st !! game_id with
     | None => e = InvalidOrExpiredSession
     | Some g =>
         match status g with
         | None => e = KeyError "status"
         | Some s =>
             if String.eqb s "waiting_for_number"
             then e = NumberMustBeBetween (range g).1 (range g).2 /\
                  invalid_guess g number
             else e = CannotSetTarget
         end
     end).
Proof.
  simpl. pose proof (set_target_number_cases game_id number st) as H.
  destruct (set_target_number game_id number st) as [[[]|e|] st']; cbn [fst snd].
  - destruct H as (g & n & _ & _ & _ & _ & ->).
    split; [done|]. split; [by destruct st|].
    split; [|done]. intros i Hi. by apply lookup_with_game_ne.
  - destruct H as [-> H]. split; [done|]. split; [done|]. split; [done|].
    by intros ? [= <-].
  - done.
Qed.

(** X26.  On a manager reached by calls from a fresh one, [process_guess]
    never fails with a [KeyError], and it fails with the [TypeError] of a
    missing target only on a session that still waits for its number. *)
Theorem reachable_guess_errors ops single_file multi_file writable
    now game_id value e :
  let st := run_ops ops (init single_file multi_file writable) in
  (process_guess now game_id value st).1 = Raised (FailedToProcessGuess e) ->
  (forall k, e <> KeyError k) /\
  (e = TypeError ->
     exists g, active_games st !! game_id = Some g /\
               status g = Some "waiting_for_number"%string /\
               target g = None).
Proof.
  simpl. intros Hr.
  pose proof (run_ops_wf ops _ (init_wf single_file multi_file writable))
    as Hwf.
  set (st := run_ops ops (init single_file multi_file writable)) in *.
  destruct (process_guess_cases now game_id value st);
    try discriminate Hr; injection Hr as <-;
    try (split; [done|]; done).
  - match goal with H : _ \/ _ |- _ => destruct H as [-> | ->] end;
      (split; [done|]; done).
  - match goal with H : live_session _ _ _ _ |- _ =>
      destruct H as (_ & Hg & _) end.
    split; [done|]. intros _. exists g. split; [done|].
    destruct (Hwf _ _ Hg) as (_ & _ & _ & [(_ & _ & [t Ht] & _)|
      (_ & _ & _ & _ & [[Hs _]|[_ [t Ht]]])]); [congruence|done|congruence].
  - match goal with H : live_session _ _ _ _ |- _ =>
      destruct H as (_ & Hg & _) end.
    destruct (Hwf _ _ Hg) as (_ & _ & _ & [(_ & _ & _ & [d Hd] & _)|(? & _)]);
      congruence.
Qed.

(** X26: the guess on a session that waits for its number. *)
Lemma reachable_guess_errors_witness :
  exists g,
    active_games (run_ops [create_multi "g2" 0 "ann" "bob"] healthy)
      !! "g2"%string = Some g /\
    status g = Some "waiting_for_number"%string /\ target g = None.
Proof.
  apply (reachable_guess_errors [create_multi "g2" 0 "ann" "bob"]
           (Json ∅) (Json ∅) true (seconds 10) "g2" (PyInt 50) TypeError).
  - vm_compute. reflexivity.
  - reflexivity.
Defined.
